(** * Verification of the release-publishing script

    Shallow embedding of [tools/release/publish-release.ts]: the class
    [PublishReleaseTask] (its constructor, [run] and private steps) as a
    program over the calls it makes to its collaborators (git client, npm
    client, prompts, build commands, console), an executable interpreter
    that runs such a program against an arbitrary stateful environment,
    and theorems about every run. *)

From Stdlib Require Import List String Ascii ZArith Bool Lia Arith DecimalString.
Import ListNotations.
Local Open Scope list_scope.
Local Open Scope string_scope.

Set Implicit Arguments.

(* ================================================================== *)
(** ** Strings: JavaScript truthiness and the literal regular expression *)
(* ================================================================== *)

Module Js.

(** The double-quote character, for messages that quote a name. *)
Definition dq : string := String (ascii_of_nat 34) EmptyString.

(** [!s] is true of the empty string only; a [string | null] value is
    falsy when it is [null] or empty. *)
Definition truthy (s : string) : bool :=
  match s with
  | EmptyString => false
  | String _ _ => true
  end.

Definition truthyOpt (o : option string) : bool :=
  match o with
  | None => false
  | Some s => truthy s
  end.

(** [startsWith pat s]: the literal [pat] matches [s] at position 0. *)
Fixpoint startsWith (pat s : string) : bool :=
  match pat, s with
  | EmptyString, _ => true
  | String _ _, EmptyString => false
  | String a pat', String b s' =>
      if Ascii.eqb a b then startsWith pat' s' else false
  end.

(** [/pat/.test(s)] for a pattern without metacharacters, anchors or
    flags: the matcher tries every start position from left to right
    and succeeds at the first one where the literal matches. The
    pattern of the script is plain ASCII, so matching bytes of UTF-8
    and matching UTF-16 code units agree. *)
Fixpoint regexTestLiteral (pat s : string) : bool :=
  if startsWith pat s then true
  else match s with
       | EmptyString => false
       | String _ s' => regexTestLiteral pat s'
       end.

(** [`${n}`] for a non-negative integer. *)
Definition numberToString (n : nat) : string :=
  NilEmpty.string_of_uint (Nat.to_uint n).

End Js.

Import Js.

(* ================================================================== *)
(** ** Data model *)
(* ================================================================== *)

(** Modelled from the spec: the class [Version] of
    [version-name/parse-version] is not part of the sources; the spec
    gives it as major, minor, patch and an optional pre-release label
    ([string | null] in the script, which tests it for truthiness). *)
Record Version := {
  major : nat;
  minor : nat;
  patch : nat;
  prereleaseLabel : option string
}.

(** What the script imports and only calls: Node's [path.join] and
    [__dirname], the chalk styling functions, the version parser and
    formatter, the static package list and the releases URL.
    [publishBranchName] belongs to the base class, see
    [switchToPublishBranch] below. *)
Record Imports := {
  dirname : string;
  join : string -> string -> string;
  bold : string -> string;
  green : string -> string;
  italic : string -> string;
  red : string -> string;
  yellow : string -> string;
  parseVersionName : string -> option Version;
  format : Version -> string;
  releasePackages : list string;
  getGithubReleasesUrl : string -> string -> string;
  publishBranchName : Version -> string
}.

Inductive Stream := Log | Info | Error.

(** Calls that answer yes or no. [ExecSync] answers whether the child
    process exited with status 0 ([execSync] throws otherwise). *)
Inductive BoolQuery :=
| HasUncommittedChanges
| CheckoutBranch (branchName : string)
| LocalCommitsMatchUpstream (publishBranch : string)
| PromptConfirm (message : string)
| ExecSync (command cwd : string)
| CheckReleasePackage (releasesPath packageName : string)
| IsNpmAuthenticated
| RunInteractiveNpmLogin.

(** Calls that answer a string. [ReadManifestVersion path] stands for
    [JSON.parse(readFileSync(path, 'utf-8')).version]. *)
Inductive StrQuery :=
| ReadManifestVersion (path : string)
| GetCommitTitle (ref : string)
| PromptForNpmDistTag (newVersion : Version).

(** Calls made for their effect only. *)
Inductive Action :=
| CreateTag (ref tagName message : string)
| Console (stream : Stream) (text : string).

(** One call together with the answer it got. [EPublish] is
    [runNpmPublish(packagePath, distTag)] with its [string | null]
    error output. *)
Inductive Event :=
| EBool (q : BoolQuery) (answer : bool)
| EStr (q : StrQuery) (answer : string)
| EAct (a : Action)
| EPublish (packagePath distTag : string) (errorOutput : option string).

(* ================================================================== *)
(** ** Programs, environments and runs *)
(* ================================================================== *)

(** A program either returns, leaves through [process.exit(code)],
    lets an exception escape, or makes a call and continues with its
    answer. *)
Inductive Prog (A : Type) : Type :=
| Ret (a : A)
| Exit (code : Z)
| Throw
| AskBool (q : BoolQuery) (k : bool -> Prog A)
| AskStr (q : StrQuery) (k : string -> Prog A)
| Act (a : Action) (k : Prog A)
| NpmPublish (packagePath distTag : string) (k : option string -> Prog A).

Arguments Exit {A} code.
Arguments Throw {A}.

Fixpoint bind {A B} (p : Prog A) (f : A -> Prog B) : Prog B :=
  match p with
  | Ret a => f a
  | Exit c => Exit c
  | Throw => Throw
  | AskBool q k => AskBool q (fun b => bind (k b) f)
  | AskStr q k => AskStr q (fun s => bind (k s) f)
  | Act a k => Act a (bind k f)
  | NpmPublish p t k => NpmPublish p t (fun e => bind (k e) f)
  end.

Declare Scope prog_scope.
Delimit Scope prog_scope with prog.
Notation "x <- p ;; q" := (bind p (fun x => q))
  (at level 61, p at next level, right associativity) : prog_scope.
Notation "p ;; q" := (bind p (fun _ => q))
  (at level 61, right associativity) : prog_scope.
Local Open Scope prog_scope.

Inductive Outcome (A : Type) : Type :=
| Returned (a : A)
| Exited (code : Z)
| Threw.

Arguments Exited {A} code.
Arguments Threw {A}.

(** The world outside the script: a state of any type and, for every
    call, the answer and the state after it. *)
Record Env (W : Type) := {
  answerBool : BoolQuery -> W -> bool * W;
  answerStr : StrQuery -> W -> string * W;
  perform : Action -> W -> W;
  npmPublish : string -> string -> W -> option string * W
}.

Record Run (W A : Type) := {
  trace : list Event;
  outcome : Outcome A;
  world : W
}.

Definition emit {W A} (e : Event) (r : Run W A) : Run W A :=
  {| trace := e :: trace r; outcome := outcome r; world := world r |}.

Fixpoint exec {W A} (env : Env W) (p : Prog A) (w : W) : Run W A :=
  match p with
  | Ret a => {| trace := []; outcome := Returned a; world := w |}
  | Exit c => {| trace := []; outcome := Exited c; world := w |}
  | Throw => {| trace := []; outcome := Threw; world := w |}
  | AskBool q k =>
      let r := answerBool env q w in
      emit (EBool q (fst r)) (exec env (k (fst r)) (snd r))
  | AskStr q k =>
      let r := answerStr env q w in
      emit (EStr q (fst r)) (exec env (k (fst r)) (snd r))
  | Act a k => emit (EAct a) (exec env k (perform env a w))
  | NpmPublish p t k =>
      let r := npmPublish env p t w in
      emit (EPublish p t (fst r)) (exec env (k (fst r)) (snd r))
  end.

(** The exit code the script itself fixes: 0 when [run] returns (the
    process then ends on its own), the argument of [process.exit]
    otherwise. An exception that escapes [run] rejects its promise;
    what the process then exits with is the runtime's policy, not the
    script's. *)
Definition exitCode {A} (o : Outcome A) : option Z :=
  match o with
  | Returned _ => Some 0%Z
  | Exited c => Some c
  | Threw => None
  end.

(* ================================================================== *)
(** ** The script *)
(* ================================================================== *)

(** Maximum allowed tries to authenticate NPM. *)
Definition MAX_NPM_LOGIN_TRIES : nat := 2.

Definition console (stream : Stream) (text : string) : Prog unit :=
  Act (Console stream text) (Ret tt).

(** [execSync(command, {cwd, stdio: 'inherit'})]: returns when the
    command exits with status 0 and throws otherwise. *)
Definition execSync (command cwd : string) : Prog unit :=
  AskBool (ExecSync command cwd) (fun ok => if ok then Ret tt else Throw).

(** [for (let x of xs) body(x)]. *)
Fixpoint forOf {X} (body : X -> Prog unit) (xs : list X) : Prog unit :=
  match xs with
  | [] => Ret tt
  | x :: rest => body x ;; forOf body rest
  end.

Definition newline : string := String (ascii_of_nat 10) EmptyString.

Definition stableNextQuestion : string :=
  "Are you sure that you want to release a stable version to the "
    ++ dq ++ "next" ++ dq ++ " tag?".

Definition releaseNowQuestion : string :=
  "Are you sure that you want to release now?".

Definition versionBumpPattern : string := "chore: bump version".

Section PublishReleaseTask.

Variable lib : Imports.
Variables projectDir repositoryOwner repositoryName : string.

Definition packageJsonPath : string := join lib projectDir "package.json".
Definition releaseOutputPath : string := join lib projectDir "dist/releases".

(** The constructor: reads the manifest, parses its version and
    leaves the process when the parser answers [null]. It returns
    the field [currentVersion]. *)
Definition constructor : Prog Version :=
  AskStr (ReadManifestVersion packageJsonPath) (fun version =>
    match parseVersionName lib version with
    | Some currentVersion => Ret currentVersion
    | None =>
        console Error (red lib
          ("Cannot parse current version in " ++ italic lib "package.json"
             ++ ". Please " ++ "make sure " ++ dq ++ version ++ dq
             ++ " is a valid Semver version.")) ;;
        Exit 1
    end).

(** Modelled from the spec: [verifyNoUncommittedChanges] of the base
    class [BaseReleaseTask], which is not part of the sources: it
    fails (terminates, with the exit code of a verification failure)
    if the working tree is dirty. *)
Definition verifyNoUncommittedChanges : Prog unit :=
  AskBool HasUncommittedChanges (fun dirty =>
    if dirty then Exit 1 else Ret tt).

(** Modelled from the spec: [switchToPublishBranch] of the base class:
    the target branch name is derived from the version, and the step
    fails if the git client cannot switch to it. *)
Definition switchToPublishBranch (newVersion : Version) : Prog string :=
  let publishBranch := publishBranchName lib newVersion in
  AskBool (CheckoutBranch publishBranch) (fun switched =>
    if switched then Ret publishBranch else Exit 1).

(** Modelled from the spec: [verifyLocalCommitsMatchUpstream] of the
    base class: fails if the local commits diverge from the
    corresponding remote branch. *)
Definition verifyLocalCommitsMatchUpstream (publishBranch : string) : Prog unit :=
  AskBool (LocalCommitsMatchUpstream publishBranch) (fun same =>
    if same then Ret tt else Exit 1).

(** Modelled from the spec: [promptConfirm] of the base class, a
    binary yes/no prompt. *)
Definition promptConfirm (message : string) : Prog bool :=
  AskBool (PromptConfirm message) (fun answer => Ret answer).

(** Verifies that the latest commit on the current branch is a
    version bump from the staging script. *)
Definition verifyLastCommitVersionBump : Prog unit :=
  AskStr (GetCommitTitle "HEAD") (fun title =>
    if negb (regexTestLiteral versionBumpPattern title) then
      console Error (red lib
        ("  ✘   The latest commit of the current branch does not seem to be a "
           ++ "version bump.")) ;;
      console Error (red lib
        "      Please stage the release using the staging script.") ;;
      Exit 1
    else Ret tt).

(** Builds all release packages that should be published. *)
Definition buildReleasePackages : Prog unit :=
  let binDir := join lib projectDir "node_modules/.bin" in
  execSync "gulp clean" binDir ;;
  execSync
    ("gulp " ++ String.concat " "
       (map (fun name => name ++ ":build-release") (releasePackages lib)))
    binDir.

(** The [forEach] of [checkReleaseOutput]: every package is checked,
    and [hasFailed] is set by each check that answers false. *)
Fixpoint checkEach (packages : list string) (hasFailed : bool) : Prog bool :=
  match packages with
  | [] => Ret hasFailed
  | packageName :: rest =>
      AskBool (CheckReleasePackage releaseOutputPath packageName) (fun passed =>
        checkEach rest (if negb passed then true else hasFailed))
  end.

(** Checks the release output by running the release-output
    validations. *)
Definition checkReleaseOutput : Prog unit :=
  hasFailed <- checkEach (releasePackages lib) false ;;
  if hasFailed then
    console Error (red lib
      ("  ✘   Release output does not pass all release validations. Please fix "
         ++ "all failures or reach out to the team.")) ;;
    Exit 1
  else Ret tt.

(** Prompts the user whether they are sure that the current stable
    version should be released to the next NPM dist-tag. *)
Definition promptStableVersionForNextTag : Prog unit :=
  confirmed <- promptConfirm stableNextQuestion ;;
  if negb confirmed then
    console Log "" ;;
    console Log (yellow lib "Aborting publish...") ;;
    Exit 0
  else Ret tt.

(** Prompts the user whether the script should continue publishing
    the release to NPM. *)
Definition promptConfirmReleasePublish : Prog unit :=
  confirmed <- promptConfirm releaseNowQuestion ;;
  if negb confirmed then
    console Log "" ;;
    console Log (yellow lib "Aborting publish...") ;;
    Exit 0
  else Ret tt.

(** The [for] loop of [checkNpmAuthentication], with [triesLeft]
    standing for [MAX_NPM_LOGIN_TRIES - i]; it returns the flag
    [failedAuthentication] as the loop leaves it. *)
Fixpoint loginLoop (triesLeft : nat) (failedAuthentication : bool) : Prog bool :=
  match triesLeft with
  | O => Ret failedAuthentication
  | S fewer =>
      AskBool RunInteractiveNpmLogin (fun loggedIn =>
        if loggedIn then Ret failedAuthentication
        else
          console Error (red lib
            "  ✘   Could not authenticate successfully. Please try again.") ;;
          loginLoop fewer true)
  end.

(** Checks whether NPM is currently authenticated; if not, runs the
    interactive login. *)
Definition checkNpmAuthentication : Prog unit :=
  AskBool IsNpmAuthenticated (fun authenticated =>
    if authenticated then
      console Info (green lib "  ✓   NPM is authenticated.")
    else
      console Log (yellow lib
        ("  ⚠   NPM is currently not authenticated. Running " ++ dq
           ++ "npm login" ++ dq ++ "..")) ;;
      failedAuthentication <- loginLoop MAX_NPM_LOGIN_TRIES false ;;
      if failedAuthentication then
        console Error (red lib
          ("  ✘   Could not authenticate after "
             ++ numberToString MAX_NPM_LOGIN_TRIES ++ " tries. " ++ "Exiting..")) ;;
        Exit 1
      else
        console Info (green lib "  ✓   Successfully authenticated NPM.")).

(** Publishes the specified package within the given NPM dist tag. *)
Definition publishPackageToNpm (packageName npmDistTag : string) : Prog unit :=
  console Info (green lib
    ("  ⭮   Publishing " ++ dq ++ packageName ++ dq ++ "..")) ;;
  NpmPublish (join lib releaseOutputPath packageName) npmDistTag (fun errorOutput =>
    if truthyOpt errorOutput then
      console Error (red lib
        ("  ✘   An error occurred while publishing " ++ dq ++ packageName
           ++ dq ++ ".")) ;;
      console Error (red lib
        "      Please check the terminal output and reach out to the team.") ;;
      console Error (red lib
        (newline ++ match errorOutput with Some text => text | None => "" end)) ;;
      Exit 1
    else
      console Info (green lib
        ("  ✓   Successfully published " ++ dq ++ packageName ++ dq))).

Definition run (currentVersion : Version) : Prog unit :=
  console Log "" ;;
  console Log (green lib "-----------------------------------------") ;;
  console Log (green lib (bold lib "  Angular Material release script")) ;;
  console Log (green lib "-----------------------------------------") ;;
  console Log "" ;;
  let newVersion := currentVersion in
  let newVersionName := format lib currentVersion in
  verifyNoUncommittedChanges ;;
  publishBranch <- switchToPublishBranch newVersion ;;
  verifyLastCommitVersionBump ;;
  verifyLocalCommitsMatchUpstream publishBranch ;;
  npmDistTag <- AskStr (PromptForNpmDistTag newVersion) (fun tag => Ret tag) ;;
  (if (npmDistTag =? "next")%string && negb (truthyOpt (prereleaseLabel newVersion))
   then promptStableVersionForNextTag else Ret tt) ;;
  buildReleasePackages ;;
  console Info (green lib "  ✓   Built the release output.") ;;
  checkReleaseOutput ;;
  console Info (green lib "  ✓   Release output passed validation checks.") ;;
  Act (CreateTag "HEAD" newVersionName "") (Ret tt) ;;
  console Info (green lib
    ("  ✓   Created release tag: " ++ dq ++ italic lib newVersionName ++ dq)) ;;
  checkNpmAuthentication ;;
  promptConfirmReleasePublish ;;
  forOf (fun packageName => publishPackageToNpm packageName npmDistTag)
    (releasePackages lib) ;;
  console Log "" ;;
  console Info (green lib (bold lib "  ✓   Published all packages successfully")) ;;
  console Info (yellow lib
    ("  ⚠   Please push the newly created tag to Github and draft a new "
       ++ "release.")) ;;
  console Info (yellow lib
    ("      " ++ getGithubReleasesUrl lib repositoryOwner repositoryName)).

(** [new PublishReleaseTask(projectDir, owner, name).run()]. *)
Definition task : Prog unit :=
  currentVersion <- constructor ;;
  run currentVersion.

End PublishReleaseTask.

(** The project directory of the entry point, [join(__dirname, '../../')]. *)
Definition entryProjectDir (lib : Imports) : string :=
  join lib (dirname lib) "../../".

(** Entry-point for the create release script. *)
Definition main (lib : Imports) : Prog unit :=
  task lib (entryProjectDir lib) "angular" "material2".

(* ================================================================== *)
(** ** A scripted environment, for running the script on examples *)
(* ================================================================== *)

Module Demo.

Definition stable : Version :=
  {| major := 5; minor := 0; patch := 0; prereleaseLabel := None |}.

Definition candidate : Version :=
  {| major := 5; minor := 0; patch := 0; prereleaseLabel := Some "rc" |}.

Definition formatVersion (v : Version) : string :=
  numberToString (major v) ++ "." ++ numberToString (minor v) ++ "."
    ++ numberToString (patch v)
    ++ match prereleaseLabel v with
       | Some label => "-" ++ label ++ ".0"
       | None => ""
       end.

(** A parser that knows the two sample versions only. *)
Definition parseSample (text : string) : option Version :=
  if (text =? formatVersion stable)%string then Some stable
  else if (text =? formatVersion candidate)%string then Some candidate
  else None.

Definition lib : Imports :=
  {| dirname := "/repo/tools/release";
     (* resolves the one relative path of the script, joins the others *)
   join := fun a b => if (b =? "../../")%string then "/repo" else a ++ "/" ++ b;
     bold := fun s => s;
     green := fun s => s;
     italic := fun s => s;
     red := fun s => s;
     yellow := fun s => s;
     parseVersionName := parseSample;
     format := formatVersion;
     releasePackages := ["cdk"; "material"; "material-moment-adapter"];
     getGithubReleasesUrl := fun owner name =>
       "https://github.com/" ++ owner ++ "/" ++ name ++ "/releases";
     publishBranchName := fun v =>
     numberToString (major v) ++ "." ++ numberToString (minor v) ++ ".x" |}.

(** The answers of one session. The state of the world is the number
    of login attempts made so far. *)
Record Script := {
  manifestVersion : string;
  dirty : bool;
  canSwitch : bool;
  commitTitle : string;
  matchesUpstream : bool;
  distTag : string;
  confirms : bool;
  commandsSucceed : bool;
  failingCheck : option string;
  authenticated : bool;
  logins : list bool;
  failingPublish : option string
}.

Definition named (o : option string) (name : string) : bool :=
  match o with
  | Some n => (n =? name)%string
  | None => false
  end.

Definition scripted (s : Script) : Env nat :=
  {| answerBool := fun q attempts =>
       match q with
       | HasUncommittedChanges => (dirty s, attempts)
       | CheckoutBranch _ => (canSwitch s, attempts)
       | LocalCommitsMatchUpstream _ => (matchesUpstream s, attempts)
       | PromptConfirm _ => (confirms s, attempts)
       | ExecSync _ _ => (commandsSucceed s, attempts)
       | CheckReleasePackage _ name => (negb (named (failingCheck s) name), attempts)
       | IsNpmAuthenticated => (authenticated s, attempts)
       | RunInteractiveNpmLogin => (nth attempts (logins s) false, S attempts)
       end;
     answerStr := fun q attempts =>
       match q with
       | ReadManifestVersion _ => (manifestVersion s, attempts)
       | GetCommitTitle _ => (commitTitle s, attempts)
       | PromptForNpmDistTag _ => (distTag s, attempts)
       end;
     perform := fun _ attempts => attempts;
     npmPublish := fun path _ attempts =>
       (if named (failingPublish s) path then Some "npm ERR! 403" else None,
        attempts) |}.

(** A session on a clean tree whose branch can be switched to, whose
    commits match upstream and whose build commands succeed; [logins]
    is [None] when NPM is authenticated already, and the answers of the
    login attempts otherwise. *)
Definition session (manifestVersion commitTitle distTag : string)
    (confirms : bool) (failingCheck : option string)
    (logins : option (list bool)) (failingPublish : option string) : Script :=
  {| manifestVersion := manifestVersion;
     dirty := false;
     canSwitch := true;
     commitTitle := commitTitle;
     matchesUpstream := true;
     distTag := distTag;
     confirms := confirms;
     commandsSucceed := true;
     failingCheck := failingCheck;
     authenticated := match logins with None => true | Some _ => false end;
     logins := match logins with None => [] | Some answers => answers end;
     failingPublish := failingPublish |}.

Definition bump : string := "chore: bump version to 5.0.0".

(** A session in which everything goes well. *)
Definition smooth : Script :=
  session "5.0.0" bump "latest" true None None None.

(** The check of the second package fails. *)
Definition failingMaterialCheck : Script :=
  session "5.0.0" bump "latest" true (Some "material") None None.

(** A stable version sent to the next tag, the extra prompt declined. *)
Definition stableToNextDeclined : Script :=
  session "5.0.0" bump "next" false None None None.

(** A release candidate sent to the next tag. *)
Definition candidateToNext : Script :=
  session "5.0.0-rc.0" "chore: bump version to 5.0.0-rc.0" "next" true None None None.

(** The last commit is not the version bump. *)
Definition notStaged : Script :=
  session "5.0.0" "fix(button): ripple color" "latest" true None None None.

(** The last commit reverts the version bump. *)
Definition revertedBump : Script :=
  session "5.0.0" "revert: chore: bump version" "latest" true None None None.

(** The manifest holds no Semver version. *)
Definition badManifest : Script :=
  session "five" bump "latest" true None None None.

(** Not logged in; the first login fails and the second succeeds. *)
Definition secondLoginSucceeds : Script :=
  session "5.0.0" bump "latest" true None (Some [false; true]) None.

(** Publishing the second package fails. *)
Definition failingMaterialPublish : Script :=
  session "5.0.0" bump "latest" true None None
    (Some "/repo/dist/releases/material").

(** The calls of a trace without the console output. *)
Definition calls (tr : list Event) : list Event :=
  filter (fun e => match e with EAct (Console _ _) => false | _ => true end) tr.

End Demo.

(* ================================================================== *)
(** ** The runs a program can make *)
(* ================================================================== *)

(** [mayRun p tr o]: [tr] and [o] are the calls and the outcome of [p]
    for some choice of the answers to its calls. *)
Fixpoint mayRun {A} (p : Prog A) (tr : list Event) (o : Outcome A) {struct p} : Prop :=
  match p with
  | Ret a => tr = [] /\ o = Returned a
  | Exit c => tr = [] /\ o = Exited c
  | Throw => tr = [] /\ o = Threw
  | AskBool q k => exists b rest, tr = EBool q b :: rest /\ mayRun (k b) rest o
  | AskStr q k => exists s rest, tr = EStr q s :: rest /\ mayRun (k s) rest o
  | Act a k => exists rest, tr = EAct a :: rest /\ mayRun k rest o
  | NpmPublish p t k =>
      exists e rest, tr = EPublish p t e :: rest /\ mayRun (k e) rest o
  end.

(** The environment that answers as a given trace says: its state is
    the part of the trace still to come. *)
Definition replay : Env (list Event) :=
  {| answerBool := fun _ w =>
       match w with
       | EBool _ b :: rest => (b, rest)
       | _ => (false, tl w)
       end;
     answerStr := fun _ w =>
       match w with
       | EStr _ s :: rest => (s, rest)
       | _ => (EmptyString, tl w)
       end;
     perform := fun _ w => tl w;
     npmPublish := fun _ _ w =>
       match w with
       | EPublish _ _ err :: rest => (err, rest)
       | _ => (None, tl w)
       end |}.

(* ================================================================== *)
(** ** Observations of a trace *)
(* ================================================================== *)

Definition isConsole (e : Event) : bool :=
  match e with EAct (Console _ _) => true | _ => false end.

Definition isBranchSwitch (e : Event) : bool :=
  match e with EBool (CheckoutBranch _) _ => true | _ => false end.

Definition isTagCreation (e : Event) : bool :=
  match e with EAct (CreateTag _ _ _) => true | _ => false end.

(** Both build commands go through [execSync], and nothing else does. *)
Definition isBuild (e : Event) : bool :=
  match e with EBool (ExecSync _ _) _ => true | _ => false end.

Definition isCheck (e : Event) : bool :=
  match e with EBool (CheckReleasePackage _ _) _ => true | _ => false end.

Definition isFailedCheck (e : Event) : bool :=
  match e with EBool (CheckReleasePackage _ _) passed => negb passed | _ => false end.

Definition isPublish (e : Event) : bool :=
  match e with EPublish _ _ _ => true | _ => false end.

Definition isAuthentication (e : Event) : bool :=
  match e with
  | EBool IsNpmAuthenticated _ | EBool RunInteractiveNpmLogin _ => true
  | _ => false
  end.

Definition isLoginAttempt (e : Event) : bool :=
  match e with EBool RunInteractiveNpmLogin _ => true | _ => false end.

Definition isConfirmPrompt (e : Event) : bool :=
  match e with EBool (PromptConfirm _) _ => true | _ => false end.

Definition isDeclinedPrompt (e : Event) : bool :=
  match e with EBool (PromptConfirm _) answer => negb answer | _ => false end.

Definition isDistTagPrompt (e : Event) : bool :=
  match e with EStr (PromptForNpmDistTag _) _ => true | _ => false end.

Definition isCommitTitleQuery (e : Event) : bool :=
  match e with EStr (GetCommitTitle _) _ => true | _ => false end.

(** The actions that change the repository, the build output or the
    registry. *)
Definition isMutating (e : Event) : bool :=
  isBranchSwitch e || isTagCreation e || isBuild e || isPublish e.

(** The packages for which [checkReleasePackage] was called, in order. *)
Definition checkedPackages (tr : list Event) : list string :=
  flat_map (fun e =>
    match e with EBool (CheckReleasePackage _ name) _ => [name] | _ => [] end) tr.

(** The paths for which [runNpmPublish] was called, in order, and the
    error output of each call. *)
Definition publishedPaths (tr : list Event) : list string :=
  flat_map (fun e => match e with EPublish path _ _ => [path] | _ => [] end) tr.

Definition publishErrors (tr : list Event) : list (option string) :=
  flat_map (fun e => match e with EPublish _ _ err => [err] | _ => [] end) tr.

Definition publishTags (tr : list Event) : list string :=
  flat_map (fun e => match e with EPublish _ tag _ => [tag] | _ => [] end) tr.

(** The events strictly before, and strictly after, the first event
    that satisfies [f]. *)
Fixpoint beforeFirst (f : Event -> bool) (tr : list Event) : list Event :=
  match tr with
  | [] => []
  | e :: rest => if f e then [] else e :: beforeFirst f rest
  end.

Fixpoint afterFirst (f : Event -> bool) (tr : list Event) : list Event :=
  match tr with
  | [] => []
  | e :: rest => if f e then rest else afterFirst f rest
  end.

(** Console output and [runNpmPublish] calls: what the publish loop
    does. *)
Definition isConsoleOrPublish (e : Event) : bool := isConsole e || isPublish e.

(** The final confirmation prompt, and its being answered yes. *)
Definition isReleaseConfirm (e : Event) : bool :=
  match e with
  | EBool (PromptConfirm message) _ => (message =? releaseNowQuestion)%string
  | _ => false
  end.

Definition isReleaseConfirmed (e : Event) : bool :=
  match e with
  | EBool (PromptConfirm message) answer =>
      (message =? releaseNowQuestion)%string && answer
  | _ => false
  end.

(** The extra confirmation prompt for a stable version on the next tag. *)
Definition isStableNextPrompt (e : Event) : bool :=
  match e with
  | EBool (PromptConfirm message) _ => (message =? stableNextQuestion)%string
  | _ => false
  end.

(** The dist-tag prompt answered exactly [next] for a version whose
    pre-release label is falsy ([null], or empty). *)
Definition isStableToNext (e : Event) : bool :=
  match e with
  | EStr (PromptForNpmDistTag newVersion) npmDistTag =>
      (npmDistTag =? "next")%string
        && negb (truthyOpt (prereleaseLabel newVersion))
  | _ => false
  end.

(** The calls of [getCommitTitle], in order: the ref asked for and the
    title answered. *)
Definition commitTitles (tr : list Event) : list (string * string) :=
  flat_map (fun e =>
    match e with EStr (GetCommitTitle ref) title => [(ref, title)] | _ => [] end) tr.

(** The answers of the dist-tag prompt, in order. *)
Definition distTags (tr : list Event) : list string :=
  flat_map (fun e =>
    match e with EStr (PromptForNpmDistTag _) npmDistTag => [npmDistTag] | _ => [] end) tr.

(** The answers of the login attempts, in order. *)
Definition loginAnswers (tr : list Event) : list bool :=
  flat_map (fun e =>
    match e with EBool RunInteractiveNpmLogin loggedIn => [loggedIn] | _ => [] end) tr.

(** The steps that follow the tag creation in [run]: the
    authentication check with its logins, the final confirmation and
    the publish calls. *)
Definition isAfterTagStep (e : Event) : bool :=
  isAuthentication e || isReleaseConfirm e || isPublish e.

(** What may happen once the tag exists: those steps and console
    output. No call to the git client is among them. *)
Definition isReleaseStep (e : Event) : bool :=
  isConsole e || isAuthentication e || isConfirmPrompt e || isPublish e.

Definition isFailedBuild (e : Event) : bool :=
  match e with EBool (ExecSync _ _) succeeded => negb succeeded | _ => false end.

(** The answers that make a step fail: an unparseable version, a dirty
    tree, a branch that cannot be switched to, a last commit that is no
    version bump, diverged commits, a failed validation, a failed login
    and a publish call with error output. *)
Definition isFailure (lib : Imports) (e : Event) : bool :=
  match e with
  | EStr (ReadManifestVersion _) version =>
      match parseVersionName lib version with Some _ => false | None => true end
  | EBool HasUncommittedChanges dirty => dirty
  | EBool (CheckoutBranch _) switched => negb switched
  | EStr (GetCommitTitle _) title => negb (regexTestLiteral versionBumpPattern title)
  | EBool (LocalCommitsMatchUpstream _) same => negb same
  | EBool (CheckReleasePackage _ _) passed => negb passed
  | EBool RunInteractiveNpmLogin loggedIn => negb loggedIn
  | EPublish _ _ errorOutput => truthyOpt errorOutput
  | _ => false
  end.





(** The call [isNpmAuthenticated()], and the answers it got. *)
Definition isAuthQuery (e : Event) : bool :=
  match e with EBool IsNpmAuthenticated _ => true | _ => false end.

Definition authAnswers (tr : list Event) : list bool :=
  flat_map (fun e =>
    match e with EBool IsNpmAuthenticated authenticated => [authenticated] | _ => [] end) tr.

(* ================================================================== *)
(** ** The order of the steps *)
(* ================================================================== *)

(** The place of a call in [run], in the order in which the statements
    of the constructor and of [run] make them; console output has no
    place of its own. The two build commands share a place, as do the
    checks, the login attempts and the publish calls. *)
Definition stage (e : Event) : option nat :=
  match e with
  | EAct (Console _ _) => None
  | EStr (ReadManifestVersion _) _ => Some 1
  | EBool HasUncommittedChanges _ => Some 2
  | EBool (CheckoutBranch _) _ => Some 3
  | EStr (GetCommitTitle _) _ => Some 4
  | EBool (LocalCommitsMatchUpstream _) _ => Some 5
  | EStr (PromptForNpmDistTag _) _ => Some 6
  | EBool (PromptConfirm message) _ =>
      if (message =? stableNextQuestion)%string then Some 7 else Some 13
  | EBool (ExecSync _ _) _ => Some 8
  | EBool (CheckReleasePackage _ _) _ => Some 9
  | EAct (CreateTag _ _ _) => Some 10
  | EBool IsNpmAuthenticated _ => Some 11
  | EBool RunInteractiveNpmLogin _ => Some 12
  | EPublish _ _ _ => Some 14
  end.

(** The places at which [run] may make more than one call. *)
Definition repeatable (place : nat) : bool :=
  (place =? 8)%nat || (place =? 9)%nat || (place =? 12)%nat || (place =? 14)%nat.

(** [inOrder last tr]: the calls of [tr] come in the order of their
    places, starting after place [last]; a place is taken twice in a
    row only where it is repeatable. *)
Fixpoint inOrder (last : nat) (tr : list Event) : bool :=
  match tr with
  | [] => true
  | e :: rest =>
      match stage e with
      | None => inOrder last rest
      | Some place =>
          ((last <? place)%nat || ((last =? place)%nat && repeatable place))
            && inOrder place rest
      end
  end.

(** The events that are console output or calls at one place. *)
Definition atPlace (place : nat) (e : Event) : bool :=
  match stage e with
  | None => true
  | Some p => (p =? place)%nat
  end.

(** The final confirmation answered no. *)
Definition isReleaseDeclined (e : Event) : bool :=
  match e with
  | EBool (PromptConfirm message) answer =>
      (message =? releaseNowQuestion)%string && negb answer
  | _ => false
  end.

(** The trace ends with the events [suffix]. *)
Definition endsWith (suffix tr : list Event) : Prop :=
  exists before, tr = (before ++ suffix)%list.

(* ================================================================== *)
(** ** The length of a title *)
(* ================================================================== *)

(** The length JavaScript gives a string, in UTF-16 code units, read
    off its UTF-8 bytes: a continuation byte adds nothing, the first
    byte of a four-byte sequence adds the two units of a surrogate
    pair, every other byte adds one. *)
Definition utf16Units (c : ascii) : nat :=
  let byte := nat_of_ascii c in
  if (byte <? 128)%nat then 1
  else if (byte <? 192)%nat then 0
  else if (byte <? 240)%nat then 1
  else 2.

Fixpoint utf16Length (s : string) : nat :=
  match s with
  | EmptyString => 0
  | String c rest => utf16Units c + utf16Length rest
  end.

(* ================================================================== *)
(** ** Further sessions *)
(* ================================================================== *)

Module Sessions.

(** The build commands fail. *)
Definition brokenBuild : Demo.Script :=
  {| Demo.manifestVersion := "5.0.0";
     Demo.dirty := false;
     Demo.canSwitch := true;
     Demo.commitTitle := Demo.bump;
     Demo.matchesUpstream := true;
     Demo.distTag := "latest";
     Demo.confirms := true;
     Demo.commandsSucceed := false;
     Demo.failingCheck := None;
     Demo.authenticated := true;
     Demo.logins := [];
     Demo.failingPublish := None |}.

(** Everything goes well, and the final confirmation is answered no. *)
Definition declinedRelease : Demo.Script :=
  Demo.session "5.0.0" Demo.bump "latest" false None None None.

(** Not logged in; the third login attempt is the first to succeed. *)
Definition thirdLoginSucceeds : Demo.Script :=
  Demo.session "5.0.0" Demo.bump "latest" true None (Some [false; false; true]) None.

(** The last commit has a title of seven characters, none of them
    ASCII. *)
Definition shortTitle : Demo.Script :=
  Demo.session "5.0.0" "✘✘✘✘✘✘✘" "latest" true None None None.

(** The imports of [Demo.lib] with an empty package list. *)
Definition noPackages : Imports :=
  {| dirname := dirname Demo.lib;
     join := join Demo.lib;
     bold := bold Demo.lib;
     green := green Demo.lib;
     italic := italic Demo.lib;
     red := red Demo.lib;
     yellow := yellow Demo.lib;
     parseVersionName := parseVersionName Demo.lib;
     format := format Demo.lib;
     releasePackages := [];
     getGithubReleasesUrl := getGithubReleasesUrl Demo.lib;
     publishBranchName := publishBranchName Demo.lib |}.

End Sessions.

(* ================================================================== *)
(** * Proofs *)
(* ================================================================== *)

(* ================================================================== *)
(** ** Facts about the literal pattern match *)
(* ================================================================== *)

Lemma startsWith_append (pat rest : string) :
  startsWith pat (pat ++ rest) = true.
Proof.
  induction pat as [|a pat IH]; simpl.
  - reflexivity.
  - rewrite Ascii.eqb_refl. exact IH.
Qed.

Lemma startsWith_inv (pat s : string) :
  startsWith pat s = true -> exists rest, s = pat ++ rest.
Proof.
  revert s. induction pat as [|a pat IH]; intros s H.
  - exists s. reflexivity.
  - destruct s as [|b s]; simpl in H; [discriminate|].
    destruct (Ascii.eqb a b) eqn:E; [|discriminate].
    apply Ascii.eqb_eq in E. subst b.
    destruct (IH s H) as [rest ->]. exists rest. reflexivity.
Qed.

Lemma regexTestLiteral_unfold (pat s : string) :
  regexTestLiteral pat s =
  if startsWith pat s then true
  else match s with
       | EmptyString => false
       | String _ s' => regexTestLiteral pat s'
       end.
Proof. destruct s; reflexivity. Qed.

(** The match succeeds exactly on the strings that contain the literal
    somewhere. *)
Lemma regexTestLiteral_spec (pat s : string) :
  regexTestLiteral pat s = true <-> exists before after, s = before ++ pat ++ after.
Proof.
  split.
  - induction s as [|c s IH]; simpl; intros H.
    + destruct (startsWith pat "") eqn:E; [|discriminate].
      destruct (startsWith_inv _ _ E) as [rest Hr].
      exists "", rest. exact Hr.
    + destruct (startsWith pat (String c s)) eqn:E.
      * destruct (startsWith_inv _ _ E) as [rest Hr].
        exists "", rest. exact Hr.
      * destruct (IH H) as (before & after & ->).
        exists (String c before), after. reflexivity.
  - intros (before & after & ->).
    induction before as [|c before IH]; simpl.
    + rewrite regexTestLiteral_unfold, startsWith_append. reflexivity.
    + rewrite IH. destruct (startsWith pat _); reflexivity.
Qed.

(* ================================================================== *)
(** ** Facts about runs *)
(* ================================================================== *)

(** Whatever the environment answers, the run is one of those. *)
Lemma exec_mayRun {W A} (env : Env W) (p : Prog A) (w : W) :
  mayRun p (trace (exec env p w)) (outcome (exec env p w)).
Proof.
  revert w. induction p as [a|c| |q k IH|q k IH|a k IH|pp t k IH]; intros w; simpl.
  - split; reflexivity.
  - split; reflexivity.
  - split; reflexivity.
  - eexists _, _; split; [reflexivity | apply IH].
  - eexists _, _; split; [reflexivity | apply IH].
  - eexists; split; [reflexivity | apply IH].
  - eexists _, _; split; [reflexivity | apply IH].
Qed.

(** And each of those is the run in some environment: the one that
    replays it. *)
Lemma mayRun_replay {A} (p : Prog A) tr o :
  mayRun p tr o ->
  trace (exec replay p tr) = tr /\ outcome (exec replay p tr) = o.
Proof.
  revert tr.
  induction p as [a|c| |q k IH|q k IH|a k IH|pp t k IH]; intros tr H; simpl in H.
  - destruct H as [-> ->]. split; reflexivity.
  - destruct H as [-> ->]. split; reflexivity.
  - destruct H as [-> ->]. split; reflexivity.
  - destruct H as (b & rest & -> & H). simpl.
    destruct (IH b rest H) as [-> ->]. split; reflexivity.
  - destruct H as (s & rest & -> & H). simpl.
    destruct (IH s rest H) as [-> ->]. split; reflexivity.
  - destruct H as (rest & -> & H). simpl.
    destruct (IH rest H) as [-> ->]. split; reflexivity.
  - destruct H as (e & rest & -> & H). simpl.
    destruct (IH e rest H) as [-> ->]. split; reflexivity.
Qed.

(** A run of [p] followed by [f] is a run of [p] that returned and a
    run of [f] on its result, or a run of [p] that did not return. *)
Lemma mayRun_bind_inv {A B} (p : Prog A) (f : A -> Prog B) tr o :
  mayRun (bind p f) tr o ->
  (exists a t1 t2,
      mayRun p t1 (Returned a) /\ mayRun (f a) t2 o /\ tr = (t1 ++ t2)%list)
  \/ (exists c, mayRun p tr (Exited c) /\ o = Exited c)
  \/ (mayRun p tr Threw /\ o = Threw).
Proof.
  revert tr.
  induction p as [a|c| |q k IH|q k IH|a k IH|pp t k IH]; intros tr H; simpl in H.
  - left. exists a, [], tr. simpl. auto.
  - destruct H as [-> ->]. right; left. exists c. simpl. auto.
  - destruct H as [-> ->]. right; right. simpl. auto.
  - destruct H as (b & rest & -> & H).
    destruct (IH b rest H) as [(a & t1 & t2 & H1 & H2 & ->)|[(c & H1 & ->)|[H1 ->]]].
    + left. exists a, (EBool q b :: t1), t2. simpl. eauto 6.
    + right; left. exists c. simpl. eauto 6.
    + right; right. simpl. eauto 6.
  - destruct H as (s & rest & -> & H).
    destruct (IH s rest H) as [(a & t1 & t2 & H1 & H2 & ->)|[(c & H1 & ->)|[H1 ->]]].
    + left. exists a, (EStr q s :: t1), t2. simpl. eauto 6.
    + right; left. exists c. simpl. eauto 6.
    + right; right. simpl. eauto 6.
  - destruct H as (rest & -> & H).
    destruct (IH rest H) as [(x & t1 & t2 & H1 & H2 & ->)|[(c & H1 & ->)|[H1 ->]]].
    + left. exists x, (EAct a :: t1), t2. simpl. eauto 6.
    + right; left. exists c. simpl. eauto 6.
    + right; right. simpl. eauto 6.
  - destruct H as (e & rest & -> & H).
    destruct (IH e rest H) as [(a & t1 & t2 & H1 & H2 & ->)|[(c & H1 & ->)|[H1 ->]]].
    + left. exists a, (EPublish pp t e :: t1), t2. simpl. eauto 6.
    + right; left. exists c. simpl. eauto 6.
    + right; right. simpl. eauto 6.
Qed.

Lemma mayRun_bind_assoc {A B C} (p : Prog A) (f : A -> Prog B) (g : B -> Prog C) tr o :
  mayRun (bind (bind p f) g) tr o ->
  mayRun (bind p (fun a => bind (f a) g)) tr o.
Proof.
  revert tr.
  induction p as [a|c| |q k IH|q k IH|a k IH|pp t k IH]; intros tr H; simpl in *;
    try exact H.
  - destruct H as (b & rest & -> & H). eauto.
  - destruct H as (s & rest & -> & H). eauto.
  - destruct H as (rest & -> & H). eauto.
  - destruct H as (e & rest & -> & H). eauto.
Qed.

(* ================================================================== *)
(** ** Facts about observations *)
(* ================================================================== *)

Lemma beforeFirst_app f l1 l2 :
  existsb f l1 = false ->
  beforeFirst f (l1 ++ l2)%list = (l1 ++ beforeFirst f l2)%list.
Proof.
  induction l1 as [|e l1 IH]; simpl; intros H; [reflexivity|].
  apply orb_false_iff in H. destruct H as [-> H]. now rewrite IH.
Qed.

Lemma afterFirst_app f l1 l2 :
  existsb f l1 = false ->
  afterFirst f (l1 ++ l2)%list = afterFirst f l2.
Proof.
  induction l1 as [|e l1 IH]; simpl; intros H; [reflexivity|].
  apply orb_false_iff in H. destruct H as [-> H]. now rewrite IH.
Qed.

(** Splitting a trace at the first event that satisfies [f]. *)
Lemma split_at_first f tr :
  existsb f tr = true ->
  exists e, f e = true /\ tr = (beforeFirst f tr ++ e :: afterFirst f tr)%list.
Proof.
  induction tr as [|x tr IH]; simpl; intros H; [discriminate|].
  destruct (f x) eqn:E.
  - exists x. auto.
  - simpl in H. destruct (IH H) as (e & He & Heq).
    exists e. split; [exact He|]. simpl. now rewrite <- Heq.
Qed.

Lemma existsb_beforeFirst f tr : existsb f (beforeFirst f tr) = false.
Proof.
  induction tr as [|x tr IH]; simpl; [reflexivity|].
  destruct (f x) eqn:E; simpl; [reflexivity|]. now rewrite E, IH.
Qed.

(** When every event of [tr] is of kind [g], and no event of kind [g]
    is of kind [f], no event of [tr] is of kind [f]. *)
Lemma existsb_other_kind (g f : Event -> bool) tr :
  forallb g tr = true ->
  (forall e, g e = true -> f e = false) ->
  existsb f tr = false.
Proof.
  intros Hall Hgf. induction tr as [|x tr IH]; simpl in *; [reflexivity|].
  apply andb_true_iff in Hall. destruct Hall as [Hx Hall].
  now rewrite (Hgf x Hx), IH.
Qed.

Lemma forallb_weaken (g f : Event -> bool) tr :
  forallb g tr = true ->
  (forall e, g e = true -> f e = true) ->
  forallb f tr = true.
Proof.
  intros Hall Hgf. induction tr as [|x tr IH]; simpl in *; [reflexivity|].
  apply andb_true_iff in Hall. destruct Hall as [Hx Hall].
  now rewrite (Hgf x Hx), IH.
Qed.

Lemma filter_other_kind (g f : Event -> bool) tr :
  forallb g tr = true ->
  (forall e, g e = true -> f e = false) ->
  filter f tr = [].
Proof.
  intros Hall Hgf. induction tr as [|x tr IH]; simpl in *; [reflexivity|].
  apply andb_true_iff in Hall. destruct Hall as [Hx Hall].
  now rewrite (Hgf x Hx), IH.
Qed.

Lemma flat_map_other_kind {X} (g : Event -> bool) (f : Event -> list X) tr :
  forallb g tr = true ->
  (forall e, g e = true -> f e = []) ->
  flat_map f tr = [].
Proof.
  intros Hall Hgf. induction tr as [|x tr IH]; simpl in *; [reflexivity|].
  apply andb_true_iff in Hall. destruct Hall as [Hx Hall].
  now rewrite (Hgf x Hx), IH.
Qed.

(* ================================================================== *)
(** ** The loops *)
(* ================================================================== *)

Section Loops.

Variable lib : Imports.
Variable projectDir : string.

(** The validation loop checks every package of its list, in order,
    and returns whether a check failed (or the flag was already set). *)
Lemma mayRun_checkEach packages : forall hasFailed tr o,
  mayRun (checkEach lib projectDir packages hasFailed) tr o ->
  o = Returned (hasFailed || existsb isFailedCheck tr)
  /\ forallb isCheck tr = true
  /\ checkedPackages tr = packages.
Proof.
  induction packages as [|p packages IH]; intros hf tr o H; simpl in H.
  - destruct H as [-> ->]. rewrite orb_false_r. auto.
  - destruct H as (passed & rest & -> & H).
    destruct (IH _ _ _ H) as (-> & Hall & Hpk).
    simpl. rewrite Hall, Hpk. repeat split.
    destruct passed, hf; reflexivity.
Qed.

(** The publish loop calls [runNpmPublish] for the packages of its
    list in order, stops at the first call whose error output is
    truthy, and makes no other call than console output. *)
Lemma mayRun_publishEach npmDistTag packages : forall tr o,
  mayRun (forOf (fun packageName => publishPackageToNpm lib projectDir packageName npmDistTag)
            packages) tr o ->
  forallb isConsoleOrPublish tr = true
  /\ publishedPaths tr =
       map (join lib (releaseOutputPath lib projectDir))
         (firstn (List.length (publishErrors tr)) packages)
  /\ forallb (String.eqb npmDistTag) (publishTags tr) = true
  /\ ((o = Returned tt
       /\ List.length (publishErrors tr) = List.length packages
       /\ forallb (fun err => negb (truthyOpt err)) (publishErrors tr) = true)
      \/ (o = Exited 1
          /\ exists before last,
               publishErrors tr = (before ++ [last])%list
               /\ forallb (fun err => negb (truthyOpt err)) before = true
               /\ truthyOpt last = true)).
Proof.
  induction packages as [|p packages IH]; intros tr o H.
  - simpl in H. destruct H as [-> ->]. simpl. auto 10.
  - cbn [forOf bind publishPackageToNpm console mayRun] in H.
    destruct H as (? & -> & err & rest & -> & H).
    destruct (truthyOpt err) eqn:Herr.
    + cbn [bind console mayRun] in H.
      destruct H as (? & -> & ? & -> & ? & -> & -> & ->).
      simpl. rewrite String.eqb_refl. repeat split.
      right. split; [reflexivity|]. exists [], err. auto.
    + cbn [bind console mayRun] in H.
      destruct H as (? & -> & H).
      destruct (IH _ _ H) as (Hall & Hpaths & Htags & Hend).
      simpl. rewrite String.eqb_refl, Hall, Hpaths, Htags. repeat split.
      destruct Hend as [(-> & Hlen & Hok)|(-> & before & last & Herrs & Hbefore & Hlast)].
      * left. rewrite Hlen, Herr, Hok. auto.
      * right. split; [reflexivity|]. exists (err :: before), last.
        rewrite Herrs. simpl. rewrite Herr, Hbefore. auto.
Qed.

End Loops.

(* ================================================================== *)
(** ** Walking through the script *)
(* ================================================================== *)

Ltac unfold_script H :=
  cbn [mayRun bind task constructor run console execSync
       verifyNoUncommittedChanges switchToPublishBranch
       verifyLocalCommitsMatchUpstream promptConfirm
       verifyLastCommitVersionBump buildReleasePackages checkReleaseOutput
       promptStableVersionForNextTag promptConfirmReleasePublish
       loginLoop checkNpmAuthentication MAX_NPM_LOGIN_TRIES] in H.

(** One step of a run [H : mayRun p tr o]: name the answer of the next
    call, branch where the script branches, and summarise the two loops
    over the package list by their lemmas. *)
Ltac walk_step H :=
  unfold checkReleaseOutput in H;
  unfold_script H;
  lazymatch type of H with
  | mayRun (bind (bind _ _) _) _ _ => apply mayRun_bind_assoc in H
  | exists _, _ => destruct H as [? H]
  | _ /\ _ => let E := fresh "E" in destruct H as [E H]; try subst
  | mayRun (if ?b then _ else _) _ _ => destruct b eqn:?
  | mayRun (match ?x with _ => _ end) _ _ => destruct x eqn:?
  | mayRun (bind (if ?b then _ else _) _) _ _ => destruct b eqn:?
  | mayRun (bind (match ?x with _ => _ end) _) _ _ => destruct x eqn:?
  | mayRun (bind (checkEach _ _ _ _) _) _ _ =>
      let Hloop := fresh "Hchecks" in
      apply mayRun_bind_inv in H;
      destruct H as [(? & ? & ? & Hloop & H & ->)|[(? & Hloop & ->)|[Hloop ->]]];
      apply mayRun_checkEach in Hloop;
      destruct Hloop as (Hloop & ?Hallchecks & ?Hchecked);
      [ injection Hloop as -> | discriminate Hloop | discriminate Hloop ]
  | mayRun (bind (forOf _ _) _) _ _ =>
      let Hloop := fresh "Hpublish" in
      let Hout := fresh "Hout" in
      apply mayRun_bind_inv in H;
      destruct H as [(? & ? & ? & Hloop & H & ->)|[(? & Hloop & ->)|[Hloop ->]]];
      apply mayRun_publishEach in Hloop;
      destruct Hloop as (?Hallpub & ?Hpaths & ?Htags
                         & [(Hout & ?Hlen & ?Hok)
                           |(Hout & ?before & ?last & ?Herrs & ?Hbefore & ?Hlast)]);
      first [ discriminate Hout | injection Hout as Hout; subst | idtac ]
  end.

Ltac walk H := repeat walk_step H.

(** Every event of a kind excludes the other kinds: the side condition
    of [existsb_other_kind] and its companions. *)
Ltac kinds :=
  let e := fresh "e" in
  let He := fresh "He" in
  intros e He; destruct e as [[] ?|[] ?|[]|]; cbv in He |- *; congruence.

(** Evaluate the observations of the goal on an explicit trace, using
    what the loop lemmas say about the segments the loops produced and
    what the branches taken say about the answers. *)
Ltac observe_step :=
  first
  [ rewrite existsb_app
  | rewrite forallb_app
  | rewrite flat_map_app
  | rewrite filter_app
  | rewrite app_nil_r
  | match goal with
    | Hk : forallb ?g ?t = true |- context [afterFirst ?f (?t ++ ?l)%list] =>
        rewrite (@afterFirst_app f t l)
          by (apply (@existsb_other_kind g f t Hk); kinds)
    | Hk : forallb ?g ?t = true |- context [beforeFirst ?f (?t ++ ?l)%list] =>
        rewrite (@beforeFirst_app f t l)
          by (apply (@existsb_other_kind g f t Hk); kinds)
    | Hk : forallb ?g ?t = true |- context [existsb ?f ?t] =>
        rewrite (@existsb_other_kind g f t Hk) by kinds
    | Hk : forallb ?g ?t = true |- context [forallb ?f ?t] =>
        rewrite (@forallb_weaken g f t Hk) by kinds
    | Hk : forallb ?g ?t = true |- context [filter ?f ?t] =>
        rewrite (@filter_other_kind g f t Hk) by kinds
    | Hk : forallb ?g ?t = true |- context [flat_map ?f ?t] =>
        rewrite (@flat_map_other_kind _ g f t Hk) by kinds
    | Hk : ?x = _ |- _ =>
        lazymatch x with
        | existsb _ _ => idtac
        | forallb _ _ => idtac
        | flat_map _ _ => idtac
        | List.length _ => idtac
        | andb _ _ => idtac
        | negb _ => idtac
        | truthyOpt _ => idtac
        | parseVersionName _ _ => idtac
        end;
        rewrite Hk
    end ].

Ltac observe :=
  unfold checkedPackages, publishedPaths, publishErrors, publishTags,
    commitTitles, loginAnswers, distTags in *;
  repeat (simpl; observe_step); simpl.

(** The answers that a branch of the script has fixed. *)
Ltac settle_answers :=
  repeat match goal with
  | Hx : negb ?x = _ |- _ =>
      is_var x; destruct x; simpl in Hx; try discriminate Hx; clear Hx
  end.

(** The texts sent to the console matter only as far as a claim
    quotes one: name each of them, in the script and in the claim
    alike. *)
Ltac name_texts :=
  repeat match goal with
  | |- context [Console _ ?t] =>
      lazymatch t with
      | red _ _ => idtac
      | green _ _ => idtac
      | yellow _ _ => idtac
      end;
      let text := fresh "text" in generalize t; intros text
  end.

(** Replace the run of [main] in the goal by an arbitrary run the
    script can make, and split it into the ways the script can go. The
    claim is kept folded while the run is walked through. *)
Ltac script_cases :=
  lazymatch goal with
  | |- context [exec ?env (main ?lib) ?w] =>
      let tr := fresh "tr" in
      let o := fresh "o" in
      let H := fresh "Hrun" in
      let claim := fresh "claim" in
      generalize (exec_mayRun env (main lib) w);
      generalize (outcome (exec env (main lib) w));
      generalize (trace (exec env (main lib) w));
      unfold main, task, run, constructor, verifyLastCommitVersionBump,
        checkReleaseOutput, promptStableVersionForNextTag,
        promptConfirmReleasePublish, checkNpmAuthentication, console;
      name_texts;
      intros tr o H;
      pattern tr, o;
      lazymatch goal with |- ?Q _ _ => set (claim := Q) end;
      walk H; settle_answers;
      subst claim; cbv beta
  end.

(* ================================================================== *)
(** ** Output validation *)
(* ================================================================== *)

(** C3. In every run in which [checkReleasePackage] answers false for
    some package, the check was evaluated for every package of
    [releasePackages], in order; the process exits with code 1 before
    the step that follows validation (the tag creation), and
    [runNpmPublish] is never called. *)
Theorem failed_validation_publishes_nothing :
  forall W (env : Env W) lib w,
    let r := exec env (main lib) w in
    existsb isFailedCheck (trace r) = true ->
    outcome r = Exited 1
    /\ checkedPackages (trace r) = releasePackages lib
    /\ existsb isTagCreation (trace r) = false
    /\ existsb isPublish (trace r) = false.
Proof.
  intros W env lib w r. subst r. script_cases.
  all: observe.
  all: intros Hfailed; try discriminate Hfailed.
  all: rewrite ?app_nil_r; auto.
Qed.

(** C3, on an example: the check of the second package fails. *)
Lemma failed_validation_publishes_nothing_witness :
  let r := exec (Demo.scripted Demo.failingMaterialCheck) (main Demo.lib) 0 in
  existsb isFailedCheck (trace r) = true
  /\ outcome r = Exited 1
  /\ checkedPackages (trace r) = releasePackages Demo.lib
  /\ existsb isTagCreation (trace r) = false
  /\ existsb isPublish (trace r) = false.
Proof.
  split; [reflexivity|].
  apply (@failed_validation_publishes_nothing nat
           (Demo.scripted Demo.failingMaterialCheck) Demo.lib 0).
  reflexivity.
Defined.

(* ================================================================== *)
(** ** The dist tag and the extra confirmation *)
(* ================================================================== *)

(** C4. When the dist-tag prompt answers [next] for a version without
    pre-release label, nothing was built before, and the very next call
    is the yes/no prompt about a stable version on the next tag.
    Answered no, the process exits with code 0 and builds nothing;
    answered yes, the workflow goes on to the first build command. *)
Theorem stable_to_next_needs_confirmation :
  forall W (env : Env W) lib w,
    let r := exec env (main lib) w in
    existsb isStableToNext (trace r) = true ->
    existsb isBuild (beforeFirst isDistTagPrompt (trace r)) = false
    /\ exists answer rest,
         afterFirst isDistTagPrompt (trace r)
           = EBool (PromptConfirm stableNextQuestion) answer :: rest
         /\ (answer = false ->
             outcome r = Exited 0 /\ existsb isBuild (trace r) = false)
         /\ (answer = true ->
             exists succeeded rest',
               rest = EBool (ExecSync "gulp clean"
                        (join lib (entryProjectDir lib) "node_modules/.bin"))
                        succeeded :: rest').
Proof.
  intros W env lib w r. subst r. script_cases.
  all: observe.
  all: intros Hnext; try discriminate Hnext.
  all: (split; [reflexivity|]).
  all: eexists _, _; split; [reflexivity|].
  all: split; intros Hanswer; try discriminate Hanswer; eauto.
Qed.

(** C4, on an example: version 5.0.0 sent to next, the prompt declined. *)
Lemma stable_to_next_needs_confirmation_witness :
  let r := exec (Demo.scripted Demo.stableToNextDeclined) (main Demo.lib) 0 in
  existsb isStableToNext (trace r) = true
  /\ outcome r = Exited 0
  /\ existsb isBuild (trace r) = false.
Proof.
  split; [reflexivity|].
  destruct (@stable_to_next_needs_confirmation nat
              (Demo.scripted Demo.stableToNextDeclined) Demo.lib 0 eq_refl)
    as (_ & answer & rest & Hafter & Hno & _).
  apply Hno.
  vm_compute in Hafter. congruence.
Defined.

(** C10. The extra prompt is issued in exactly the runs in which the
    dist-tag prompt answered [next] for a version whose pre-release
    label is falsy. In every other run that reaches the dist-tag
    prompt, the very next call after it is the first build command. *)
Theorem extra_confirmation_only_for_stable_to_next :
  forall W (env : Env W) lib w,
    let r := exec env (main lib) w in
    existsb isStableNextPrompt (trace r) = existsb isStableToNext (trace r)
    /\ (existsb isDistTagPrompt (trace r) = true ->
        existsb isStableToNext (trace r) = false ->
        exists succeeded rest,
          afterFirst isDistTagPrompt (trace r)
            = EBool (ExecSync "gulp clean"
                (join lib (entryProjectDir lib) "node_modules/.bin"))
                succeeded :: rest).
Proof.
  intros W env lib w r. subst r. script_cases.
  all: observe.
  all: split; [reflexivity|].
  all: intros Hreached Hother; try discriminate Hreached; try discriminate Hother.
  all: eexists _, _; reflexivity.
Qed.

(** C10, on an example: a release candidate sent to next. *)
Lemma extra_confirmation_only_for_stable_to_next_witness :
  let r := exec (Demo.scripted Demo.candidateToNext) (main Demo.lib) 0 in
  existsb isDistTagPrompt (trace r) = true
  /\ existsb isStableToNext (trace r) = false
  /\ existsb isStableNextPrompt (trace r) = false
  /\ exists succeeded rest,
       afterFirst isDistTagPrompt (trace r)
         = EBool (ExecSync "gulp clean" "/repo/node_modules/.bin") succeeded :: rest.
Proof.
  split; [reflexivity|]. split; [reflexivity|].
  pose proof (@extra_confirmation_only_for_stable_to_next nat
                (Demo.scripted Demo.candidateToNext) Demo.lib 0) as [Hsame Hdirect].
  split.
  - rewrite Hsame. reflexivity.
  - apply Hdirect; reflexivity.
Defined.

(* ================================================================== *)
(** ** The version-bump commit *)
(* ================================================================== *)

(** C5. In a run that asks for the title of the last commit, the ref
    asked for is HEAD; the verification passes (the next call is the
    comparison with the upstream branch) if and only if the title
    matches the version-bump pattern; and for a title that does not
    match, the process prints two error lines, the second of which
    points to the staging script, and exits with code 1 without ever
    running a build command. *)
Theorem commit_title_check :
  forall W (env : Env W) lib w ref title,
    let r := exec env (main lib) w in
    commitTitles (trace r) = [(ref, title)] ->
    ref = "HEAD"
    /\ (regexTestLiteral versionBumpPattern title = true <->
        exists branch same rest,
          afterFirst isCommitTitleQuery (trace r)
            = EBool (LocalCommitsMatchUpstream branch) same :: rest)
    /\ (regexTestLiteral versionBumpPattern title = false ->
        outcome r = Exited 1
        /\ existsb isBuild (trace r) = false
        /\ exists line,
             afterFirst isCommitTitleQuery (trace r)
               = [EAct (Console Error line);
                  EAct (Console Error
                    (red lib "      Please stage the release using the staging script."))]).
Proof.
  intros W env lib w ref title r. subst r. script_cases.
  all: observe.
  all: intros Htitle; try discriminate Htitle.
  all: injection Htitle as <- <-.
  all: split; [reflexivity|].
  all: repeat match goal with
       | Hm : negb (regexTestLiteral _ _) = _ |- _ =>
           apply (f_equal negb) in Hm; rewrite negb_involutive in Hm; simpl in Hm
       end.
  all: split; [split|].
  all: try (intros _; eexists _, _, _; reflexivity).
  all: try (intros _; assumption).
  all: try (intros (? & ? & ? & Hnext); discriminate Hnext).
  all: try (intros Hno; congruence).
  all: intros _; repeat split; eexists; reflexivity.
Qed.

(** C5, on an example: the last commit is an ordinary fix. *)
Lemma commit_title_check_witness :
  let r := exec (Demo.scripted Demo.notStaged) (main Demo.lib) 0 in
  commitTitles (trace r) = [("HEAD", "fix(button): ripple color")]
  /\ outcome r = Exited 1
  /\ existsb isBuild (trace r) = false.
Proof.
  split; [reflexivity|].
  destruct (@commit_title_check nat (Demo.scripted Demo.notStaged) Demo.lib 0
              "HEAD" "fix(button): ripple color" eq_refl)
    as (_ & _ & Hno).
  destruct (Hno eq_refl) as (Hexit & Hbuild & _).
  split; assumption.
Defined.

(** C9. The pattern is not anchored: [verifyLastCommitVersionBump]
    returns exactly for the titles that contain the text
    [chore: bump version] somewhere, whatever comes before or after
    it. *)
Theorem version_bump_pattern_is_unanchored :
  forall W (env : Env W) lib w,
    let title := fst (answerStr env (GetCommitTitle "HEAD") w) in
    outcome (exec env (verifyLastCommitVersionBump lib) w) = Returned tt
    <-> exists before after, title = before ++ "chore: bump version" ++ after.
Proof.
  intros W env lib w title. subst title. simpl.
  rewrite <- (regexTestLiteral_spec versionBumpPattern).
  destruct (regexTestLiteral versionBumpPattern _); simpl; split; congruence.
Qed.

(** C9, on an example: a revert of the version bump is accepted, and
    [run] goes on to compare with the upstream branch. *)
Lemma version_bump_pattern_is_unanchored_witness :
  outcome (exec (Demo.scripted Demo.revertedBump)
             (verifyLastCommitVersionBump Demo.lib) 0) = Returned tt
  /\ existsb isBuild
       (trace (exec (Demo.scripted Demo.revertedBump) (main Demo.lib) 0)) = true.
Proof.
  split; [|reflexivity].
  apply (@version_bump_pattern_is_unanchored nat
           (Demo.scripted Demo.revertedBump) Demo.lib 0).
  exists "revert: ", "". reflexivity.
Defined.

(* ================================================================== *)
(** ** The manifest version *)
(* ================================================================== *)

(** C6. When the version string read from the manifest does not parse,
    the run consists of that read and one error message, the process
    exits with code 1, and no mutating action (branch switch, tag
    creation, build command, publish call) occurs. *)
Theorem unparseable_version_stops_in_constructor :
  forall W (env : Env W) lib w path version,
    let r := exec env (main lib) w in
    hd_error (trace r) = Some (EStr (ReadManifestVersion path) version) ->
    parseVersionName lib version = None ->
    outcome r = Exited 1
    /\ existsb isMutating (trace r) = false
    /\ exists message,
         trace r = [EStr (ReadManifestVersion path) version;
                    EAct (Console Error message)].
Proof.
  intros W env lib w path version r Hread Hparse. subst r.
  unfold main, task, constructor in *. simpl in *.
  injection Hread as <- <-.
  rewrite Hparse. simpl. repeat split. eexists. reflexivity.
Qed.

(** C6, on an example: the manifest says [five]. *)
Lemma unparseable_version_stops_in_constructor_witness :
  let r := exec (Demo.scripted Demo.badManifest) (main Demo.lib) 0 in
  hd_error (trace r) = Some (EStr (ReadManifestVersion "/repo/package.json") "five")
  /\ parseVersionName Demo.lib "five" = None
  /\ outcome r = Exited 1
  /\ existsb isMutating (trace r) = false.
Proof.
  split; [reflexivity|]. split; [reflexivity|].
  destruct (@unparseable_version_stops_in_constructor nat
              (Demo.scripted Demo.badManifest) Demo.lib 0
              "/repo/package.json" "five" eq_refl eq_refl)
    as (Hexit & Hmut & _).
  split; assumption.
Defined.

(* ================================================================== *)
(** ** The publish loop *)
(* ================================================================== *)

(** C2. In a run in which the final confirmation is answered yes,
    [runNpmPublish] is called for a prefix of [releasePackages], in
    order, each with the package's directory under the release output.
    If no call returns (truthy) error output the prefix is the whole
    list and [run] returns; otherwise the last call is the only one
    with error output and the process exits with code 1. After the
    confirmation nothing is called but [runNpmPublish] and the
    console: no call undoes an earlier publish. *)
Theorem publish_stops_at_first_error :
  forall W (env : Env W) lib w,
    let r := exec env (main lib) w in
    let errors := publishErrors (trace r) in
    let directory :=
      join lib (releaseOutputPath lib (entryProjectDir lib)) in
    existsb isReleaseConfirmed (trace r) = true ->
    publishedPaths (trace r)
      = map directory (firstn (List.length errors) (releasePackages lib))
    /\ (forallb (fun err => negb (truthyOpt err)) errors = true ->
        publishedPaths (trace r) = map directory (releasePackages lib)
        /\ outcome r = Returned tt)
    /\ (forallb (fun err => negb (truthyOpt err)) errors = false ->
        outcome r = Exited 1
        /\ exists before last,
             errors = (before ++ [last])%list
             /\ forallb (fun err => negb (truthyOpt err)) before = true
             /\ truthyOpt last = true)
    /\ forallb isConsoleOrPublish (afterFirst isReleaseConfirm (trace r)) = true.
Proof.
  intros W env lib w r errors directory. subst r errors directory. script_cases.
  all: observe.
  all: intros Hyes; try discriminate Hyes.
  all: split; [reflexivity|].
  all: split;
    [intros Hall; first [discriminate Hall | rewrite firstn_all; split; reflexivity]|].
  all: split;
    [intros Hnot; first [discriminate Hnot | split; [reflexivity|]; eauto]|].
  all: reflexivity.
Qed.

(** C2, on an example: publishing the second of three packages fails. *)
Lemma publish_stops_at_first_error_witness :
  let r := exec (Demo.scripted Demo.failingMaterialPublish) (main Demo.lib) 0 in
  existsb isReleaseConfirmed (trace r) = true
  /\ publishedPaths (trace r) = ["/repo/dist/releases/cdk"; "/repo/dist/releases/material"]
  /\ outcome r = Exited 1.
Proof.
  split; [reflexivity|].
  destruct (@publish_stops_at_first_error nat
              (Demo.scripted Demo.failingMaterialPublish) Demo.lib 0 eq_refl)
    as (Hpaths & _ & Hfail & _).
  split.
  - rewrite Hpaths. reflexivity.
  - apply Hfail. reflexivity.
Defined.

(* ================================================================== *)
(** ** The release tag *)
(* ================================================================== *)

(** C8. In every run: no authentication check, login, final
    confirmation or publish call happens before the first tag
    creation, so such a step implies that the tag was created; once
    the tag is created, only those steps and console output follow (no
    call to the git client, so nothing removes the tag, on any way the
    run can end); and if a tag is created at all, it is created exactly
    once, at HEAD, under the formatted version parsed from the
    manifest, with an empty message. *)
Theorem tag_created_once_before_release_steps :
  forall W (env : Env W) lib w,
    let r := exec env (main lib) w in
    existsb isAfterTagStep (beforeFirst isTagCreation (trace r)) = false
    /\ (existsb isAfterTagStep (trace r) = true ->
        existsb isTagCreation (trace r) = true)
    /\ forallb isReleaseStep (afterFirst isTagCreation (trace r)) = true
    /\ (existsb isTagCreation (trace r) = true ->
        exists path version currentVersion,
          hd_error (trace r) = Some (EStr (ReadManifestVersion path) version)
          /\ parseVersionName lib version = Some currentVersion
          /\ filter isTagCreation (trace r)
               = [EAct (CreateTag "HEAD" (format lib currentVersion) "")]).
Proof.
  intros W env lib w r. subst r. script_cases.
  all: observe.
  all: split; [reflexivity|].
  all: split; [intros Hstep; first [discriminate Hstep | reflexivity]|].
  all: split; [reflexivity|].
  all: intros Htag; first [discriminate Htag | eauto 6].
Qed.

(** C8, on an example: the second login succeeds, yet the process
    exits; the tag 5.0.0 stays. *)
Lemma tag_created_once_before_release_steps_witness :
  let r := exec (Demo.scripted Demo.secondLoginSucceeds) (main Demo.lib) 0 in
  existsb isTagCreation (trace r) = true
  /\ outcome r = Exited 1
  /\ filter isTagCreation (trace r) = [EAct (CreateTag "HEAD" "5.0.0" "")]
  /\ forallb isReleaseStep (afterFirst isTagCreation (trace r)) = true.
Proof.
  split; [reflexivity|]. split; [reflexivity|].
  destruct (@tag_created_once_before_release_steps nat
              (Demo.scripted Demo.secondLoginSucceeds) Demo.lib 0)
    as (_ & _ & Hafter & Honce).
  split; [|exact Hafter].
  destruct (Honce eq_refl) as (path & version & v & Hread & Hparse & Hfilter).
  rewrite Hfilter.
  vm_compute in Hread. injection Hread as <- <-.
  vm_compute in Hparse. injection Hparse as <-.
  reflexivity.
Defined.

(* ================================================================== *)
(** ** Exit codes *)
(* ================================================================== *)

Lemma failure_among_checks lib tr :
  forallb isCheck tr = true ->
  existsb (isFailure lib) tr = existsb isFailedCheck tr.
Proof.
  induction tr as [|e tr IH]; simpl; intros Hall; [reflexivity|].
  apply andb_true_iff in Hall. destruct Hall as [He Hall].
  rewrite (IH Hall).
  destruct e as [[] ?|[] ?|[]|]; simpl in He; try discriminate He; reflexivity.
Qed.





(* ================================================================== *)
(** ** Authentication *)
(* ================================================================== *)

(** C1, where the script departs from it. In every run in which the
    first login attempt fails and the second succeeds, the process
    still exits with code 1: the final confirmation is never asked and
    nothing is published. The flag [failedAuthentication], set by the
    first failure, is not cleared by the later success. *)
Theorem second_login_success_still_exits :
  forall W (env : Env W) lib w,
    let r := exec env (main lib) w in
    loginAnswers (trace r) = [false; true] ->
    outcome r = Exited 1
    /\ existsb isReleaseConfirm (trace r) = false
    /\ existsb isPublish (trace r) = false.
Proof.
  intros W env lib w r. subst r. script_cases.
  all: observe.
  all: intros Hlogins; try discriminate Hlogins.
  all: repeat split.
Qed.

(** C1, on an example: not authenticated, the first login fails, the
    second succeeds. *)
Lemma second_login_success_still_exits_witness :
  let r := exec (Demo.scripted Demo.secondLoginSucceeds) (main Demo.lib) 0 in
  loginAnswers (trace r) = [false; true]
  /\ outcome r = Exited 1
  /\ existsb isReleaseConfirm (trace r) = false
  /\ existsb isPublish (trace r) = false.
Proof.
  split; [reflexivity|].
  apply (@second_login_success_still_exits nat
           (Demo.scripted Demo.secondLoginSucceeds) Demo.lib 0).
  reflexivity.
Defined.

(** What the authentication step does in every run. [isNpmAuthenticated]
    is asked at most once, and no login attempt is made before it is
    asked or when it answered yes. When it answered no, between one
    and [MAX_NPM_LOGIN_TRIES] login attempts follow, none after a
    successful one. The workflow goes on to the final confirmation
    exactly when [isNpmAuthenticated] answered yes, or answered no and
    the first login attempt succeeded; the question and every login
    attempt come before that confirmation. *)
Theorem authentication_step :
  forall W (env : Env W) lib w,
    let r := exec env (main lib) w in
    let asked := authAnswers (trace r) in
    let logins := loginAnswers (trace r) in
    List.length logins <= MAX_NPM_LOGIN_TRIES
    /\ ((asked = [] /\ logins = [])
        \/ (asked = [true] /\ logins = [])
        \/ (asked = [false]
            /\ (logins = [true] \/ logins = [false; true]
                \/ logins = [false; false])))
    /\ existsb isLoginAttempt (beforeFirst isAuthQuery (trace r)) = false
    /\ existsb isAuthQuery (afterFirst isAuthQuery (trace r)) = false
    /\ (existsb isReleaseConfirm (trace r) = true <->
        asked = [true] \/ (asked = [false] /\ logins = [true]))
    /\ (existsb isReleaseConfirm (trace r) = true ->
        existsb isAuthQuery (beforeFirst isReleaseConfirm (trace r)) = true
        /\ loginAnswers (afterFirst isReleaseConfirm (trace r)) = []).
Proof.
  intros W env lib w r asked logins. subst r asked logins. script_cases.
  all: unfold authAnswers.
  all: observe.
  all: unfold MAX_NPM_LOGIN_TRIES.
  all: split; [lia|].
  all: split; [auto 10|].
  all: split; [reflexivity|].
  all: split; [reflexivity|].
  all: split;
    [split;
       [intros Hc; first [discriminate Hc | auto]
       |intros [Ha|[Ha Hl]]; first [discriminate Ha | discriminate Hl | reflexivity]]|].
  all: intros Hc; first [discriminate Hc | split; reflexivity].
Qed.

(** On an example: in the session in which everything goes well, the
    final confirmation is reached, so NPM was found authenticated. *)
Lemma authentication_step_witness :
  let r := exec (Demo.scripted Demo.smooth) (main Demo.lib) 0 in
  authAnswers (trace r) = [true]
  \/ (authAnswers (trace r) = [false] /\ loginAnswers (trace r) = [true]).
Proof.
  destruct (@authentication_step nat (Demo.scripted Demo.smooth) Demo.lib 0)
    as (_ & _ & _ & _ & [Hreached _] & _).
  apply Hreached. reflexivity.
Defined.

(* ================================================================== *)
(** ** A run that returns *)
(* ================================================================== *)



(* ================================================================== *)
(** ** The order of the steps *)
(* ================================================================== *)

Lemma inOrder_later last place tr :
  last <= place -> inOrder place tr = true -> inOrder last tr = true.
Proof.
  intros Hle. induction tr as [|e tr IH]; simpl; [reflexivity|].
  destruct (stage e) as [p|]; [|exact IH].
  intros H. apply andb_true_iff in H. destruct H as [Hp ->].
  rewrite andb_true_r.
  apply orb_true_iff in Hp. apply orb_true_iff.
  destruct Hp as [Hp|Hp].
  - left. apply Nat.ltb_lt in Hp. apply Nat.ltb_lt. lia.
  - apply andb_true_iff in Hp. destruct Hp as [Hp Hr].
    apply Nat.eqb_eq in Hp. subst p.
    destruct (Nat.eq_dec last place) as [->|Hne].
    + right. now rewrite Nat.eqb_refl, Hr.
    + left. apply Nat.ltb_lt. lia.
Qed.

(** A segment of calls at one repeatable place fits between what
    precedes that place and what may follow it. *)
Lemma inOrder_segment place last seg rest :
  forallb (atPlace place) seg = true ->
  repeatable place = true ->
  last <= place ->
  inOrder place rest = true ->
  inOrder last (seg ++ rest)%list = true.
Proof.
  intros Hseg Hrep. revert last.
  induction seg as [|e seg IH]; simpl in *; intros last Hle Hrest.
  - now apply inOrder_later with place.
  - apply andb_true_iff in Hseg. destruct Hseg as [He Hseg].
    unfold atPlace in He. destruct (stage e) as [p|].
    + apply Nat.eqb_eq in He. subst p.
      rewrite (IH Hseg place (le_n _) Hrest), andb_true_r.
      destruct (Nat.eq_dec last place) as [->|Hne].
      * now rewrite Nat.eqb_refl, Hrep, orb_true_r.
      * apply orb_true_iff. left. apply Nat.ltb_lt. lia.
    + now apply IH.
Qed.

Ltac place_kinds :=
  let e := fresh "e" in
  let He := fresh "He" in
  intros e He; destruct e as [[] ?|[] ?|[]|]; cbv in He; try discriminate He;
  reflexivity.

Ltac in_order :=
  repeat (simpl;
    lazymatch goal with
    | |- true = true => reflexivity
    | Hk : forallb isCheck ?t = true |- inOrder _ (?t ++ _)%list = true =>
        apply (@inOrder_segment 9);
        [ apply (@forallb_weaken _ _ _ Hk); place_kinds | reflexivity | lia | ]
    | Hk : forallb isConsoleOrPublish ?t = true |- inOrder _ (?t ++ _)%list = true =>
        apply (@inOrder_segment 14);
        [ apply (@forallb_weaken _ _ _ Hk); place_kinds | reflexivity | lia | ]
    | |- inOrder _ ?t = true => is_var t; rewrite <- (app_nil_r t)
    end).

(** What [inOrder] says of any two calls of a trace: the later one has
    a later place, or the same place where that is repeatable. *)
Lemma inOrder_from last tr e place :
  inOrder last tr = true ->
  In e tr -> stage e = Some place ->
  last < place \/ (last = place /\ repeatable place = true).
Proof.
  revert last. induction tr as [|x tr IH]; simpl; intros last H Hin He; [contradiction|].
  destruct Hin as [->|Hin].
  - rewrite He in H. apply andb_true_iff in H. destruct H as [H _].
    apply orb_true_iff in H. destruct H as [H|H].
    + left. now apply Nat.ltb_lt.
    + apply andb_true_iff in H. destruct H as [H Hr].
      right. split; [now apply Nat.eqb_eq|exact Hr].
  - destruct (stage x) as [p|]; [|now apply IH].
    apply andb_true_iff in H. destruct H as [H Hrest].
    destruct (IH p Hrest Hin He) as [Hlt|[Heq Hr]]; [|subst p].
    + left. apply orb_true_iff in H. destruct H as [H|H].
      * apply Nat.ltb_lt in H. lia.
      * apply andb_true_iff in H. destruct H as [H _].
        apply Nat.eqb_eq in H. lia.
    + apply orb_true_iff in H. destruct H as [H|H].
      * left. now apply Nat.ltb_lt.
      * apply andb_true_iff in H. destruct H as [H _].
        right. split; [now apply Nat.eqb_eq|exact Hr].
Qed.

Lemma inOrder_pairs last pre e1 rest e2 place1 place2 :
  inOrder last (pre ++ e1 :: rest)%list = true ->
  In e2 rest -> stage e1 = Some place1 -> stage e2 = Some place2 ->
  place1 < place2 \/ (place1 = place2 /\ repeatable place1 = true).
Proof.
  revert last. induction pre as [|x pre IH]; simpl; intros last H Hin H1 H2.
  - rewrite H1 in H. apply andb_true_iff in H. destruct H as [_ H].
    destruct (@inOrder_from _ _ _ _ H Hin H2) as [Hlt|[Heq Hr]];
      [left; exact Hlt | right; subst place2; auto].
  - destruct (stage x) as [p|].
    + apply andb_true_iff in H. destruct H as [_ H]. eapply IH; eauto.
    + eapply IH; eauto.
Qed.

(** In every run the calls come in the order of the statements of the
    constructor and of [run]: of any two calls, the later one belongs
    to a later step, or to the same step where that step is one of the
    repeated ones (the build commands, the checks, the login attempts,
    the publish calls). No step is gone back to, and the manifest
    read, each verification, each prompt, the tag creation and the
    authentication query happen at most once. *)
Theorem calls_follow_the_order_of_run :
  forall W (env : Env W) lib w,
    let r := exec env (main lib) w in
    inOrder 0 (trace r) = true
    /\ forall pre e1 rest e2 place1 place2,
         trace r = (pre ++ e1 :: rest)%list ->
         In e2 rest ->
         stage e1 = Some place1 -> stage e2 = Some place2 ->
         place1 < place2 \/ (place1 = place2 /\ repeatable place1 = true).
Proof.
  intros W env lib w r.
  assert (Horder : inOrder 0 (trace r) = true).
  { subst r. script_cases. all: in_order. }
  split; [exact Horder|].
  intros pre e1 rest e2 place1 place2 Hsplit. rewrite Hsplit in Horder.
  eapply inOrder_pairs; eauto.
Qed.

(** On an example: in the session in which everything goes well, the
    tag creation precedes the last publish call; and [inOrder] does
    refuse a publish call before a tag creation. *)
Lemma calls_follow_the_order_of_run_witness :
  (10 < 14 \/ (10 = 14 /\ repeatable 10 = true))
  /\ inOrder 0 [EPublish "dir" "latest" None; EAct (CreateTag "HEAD" "5.0.0" "")] = false.
Proof.
  split; [|reflexivity].
  destruct (@calls_follow_the_order_of_run nat
              (Demo.scripted Demo.smooth) Demo.lib 0) as [_ Hpairs].
  refine (Hpairs
    (firstn 18 (trace (exec (Demo.scripted Demo.smooth) (main Demo.lib) 0)))
    (EAct (CreateTag "HEAD" "5.0.0" ""))
    (skipn 19 (trace (exec (Demo.scripted Demo.smooth) (main Demo.lib) 0)))
    (EPublish "/repo/dist/releases/material-moment-adapter" "latest" None)
    10 14 _ _ eq_refl eq_refl).
  - reflexivity.
  - vm_compute. tauto.
Defined.


(* ================================================================== *)
(** ** The build commands *)
(* ================================================================== *)

(** [buildReleasePackages] runs at most two commands, both in the
    directory [node_modules/.bin] of the project: first [gulp clean],
    then, only if that succeeded, one [gulp] command that names the
    task [<name>:build-release] of every package, separated by spaces.
    A command that fails ends the run at once, with an exception and
    without any message of the script; the validation starts only
    after both succeeded. *)
Theorem build_commands :
  forall W (env : Env W) lib w,
    let r := exec env (main lib) w in
    let binDir := join lib (entryProjectDir lib) "node_modules/.bin" in
    let clean := ExecSync "gulp clean" binDir in
    let build :=
      ExecSync
        ("gulp " ++ String.concat " "
           (map (fun name => name ++ ":build-release") (releasePackages lib)))
        binDir in
    (filter isBuild (trace r) = []
     \/ filter isBuild (trace r) = [EBool clean false]
     \/ exists succeeded,
          filter isBuild (trace r) = [EBool clean true; EBool build succeeded])
    /\ (existsb isFailedBuild (trace r) = true ->
        outcome r = Threw /\ afterFirst isFailedBuild (trace r) = [])
    /\ (existsb isCheck (trace r) = true ->
        filter isBuild (trace r) = [EBool clean true; EBool build true]).
Proof.
  intros W env lib w r binDir clean build. subst r binDir clean build.
  script_cases.
  all: observe.
  all: split; [eauto|].
  all: split; [intros Hfailed; first [discriminate Hfailed | split; reflexivity]|].
  all: intros Hcheck; first [discriminate Hcheck | reflexivity].
Qed.

(** On an example: the first build command fails. *)
Lemma build_commands_witness :
  let r := exec (Demo.scripted Sessions.brokenBuild) (main Demo.lib) 0 in
  existsb isFailedBuild (trace r) = true
  /\ outcome r = Threw
  /\ afterFirst isFailedBuild (trace r) = [].
Proof.
  split; [reflexivity|].
  destruct (@build_commands nat (Demo.scripted Sessions.brokenBuild) Demo.lib 0)
    as (_ & Hfailed & _).
  apply Hfailed. reflexivity.
Defined.


(* ================================================================== *)
(** ** What a step presupposes *)
(* ================================================================== *)

(** A build command is run only after the manifest version parsed,
    the title of HEAD matched the version-bump pattern, the dist tag
    was asked for once, for the parsed version, and no earlier step
    failed and no prompt was declined. *)
Theorem build_presupposes_verifications :
  forall W (env : Env W) lib w,
    let r := exec env (main lib) w in
    existsb isBuild (trace r) = true ->
    exists version currentVersion title npmDistTag,
      hd_error (trace r)
        = Some (EStr (ReadManifestVersion
                        (packageJsonPath lib (entryProjectDir lib))) version)
      /\ parseVersionName lib version = Some currentVersion
      /\ commitTitles (trace r) = [("HEAD", title)]
      /\ regexTestLiteral versionBumpPattern title = true
      /\ filter isDistTagPrompt (trace r)
           = [EStr (PromptForNpmDistTag currentVersion) npmDistTag]
      /\ existsb (isFailure lib) (beforeFirst isBuild (trace r)) = false
      /\ existsb isDeclinedPrompt (beforeFirst isBuild (trace r)) = false.
Proof.
  intros W env lib w r. subst r. script_cases.
  all: observe.
  all: intros Hbuild; try discriminate Hbuild.
  all: eexists _, _, _, _.
  all: repeat split; try reflexivity; eauto.
  all: match goal with
       | Hm : negb (regexTestLiteral _ _) = false |- _ =>
           apply (f_equal negb) in Hm; rewrite negb_involutive in Hm; exact Hm
       end.
Qed.

(** On an example: the session in which everything goes well. *)
Lemma build_presupposes_verifications_witness :
  let r := exec (Demo.scripted Demo.smooth) (main Demo.lib) 0 in
  existsb isBuild (trace r) = true
  /\ commitTitles (trace r) = [("HEAD", Demo.bump)].
Proof.
  split; [reflexivity|].
  destruct (@build_presupposes_verifications nat
              (Demo.scripted Demo.smooth) Demo.lib 0 eq_refl)
    as (version & v & title & tag & _ & _ & Htitles & _).
  rewrite Htitles. vm_compute in Htitles. injection Htitles as <-. reflexivity.
Defined.

Lemma beforeFirst_app_found f l1 l2 :
  existsb f l1 = true ->
  beforeFirst f (l1 ++ l2)%list = beforeFirst f l1.
Proof.
  induction l1 as [|e l1 IH]; simpl; intros H; [discriminate|].
  destruct (f e); [reflexivity|]. simpl in H. now rewrite IH.
Qed.

Lemma no_failure_before_first_publish lib tr :
  forallb isConsoleOrPublish tr = true ->
  existsb (isFailure lib) (beforeFirst isPublish tr) = false.
Proof.
  induction tr as [|e tr IH]; simpl; intros Hall; [reflexivity|].
  apply andb_true_iff in Hall. destruct Hall as [He Hall].
  destruct e as [[] ?|[] ?|[]|]; cbv in He; try discriminate He; simpl;
    auto.
Qed.

(** [runNpmPublish] is called only after every package passed
    validation, both build commands succeeded, the tag was created,
    [isNpmAuthenticated] was asked and either answered yes or answered
    no and followed by a first login attempt that succeeded, and the
    final confirmation was answered yes; no step before the first
    publish call failed and no prompt was declined. *)
Theorem publish_presupposes_everything_before :
  forall W (env : Env W) lib w,
    let r := exec env (main lib) w in
    existsb isPublish (trace r) = true ->
    checkedPackages (trace r) = releasePackages lib
    /\ existsb isFailedBuild (trace r) = false
    /\ List.length (filter isBuild (trace r)) = 2
    /\ List.length (filter isTagCreation (trace r)) = 1
    /\ ((authAnswers (trace r) = [true] /\ loginAnswers (trace r) = [])
        \/ (authAnswers (trace r) = [false] /\ loginAnswers (trace r) = [true]))
    /\ existsb isAuthQuery (beforeFirst isPublish (trace r)) = true
    /\ existsb isReleaseConfirmed (beforeFirst isPublish (trace r)) = true
    /\ existsb (isFailure lib) (beforeFirst isPublish (trace r)) = false
    /\ existsb isDeclinedPrompt (trace r) = false.
Proof.
  intros W env lib w r. subst r. script_cases.
  all: unfold authAnswers.
  all: observe.
  all: intros Hpublish; try discriminate Hpublish.
  all: rewrite ?orb_false_r in Hpublish.
  all: rewrite ?(beforeFirst_app_found _ _ _ Hpublish).
  all: match goal with
       | Hp : forallb isConsoleOrPublish ?t = true |- _ =>
           rewrite (no_failure_before_first_publish lib _ Hp)
       end.
  all: match goal with
       | Hc : forallb isCheck ?t = true, Hf : existsb isFailedCheck ?t = false |- _ =>
           rewrite (failure_among_checks lib t Hc), Hf
       end.
  all: repeat split; auto.
Qed.

(** On an example: publishing the second package fails, after the
    first was published. *)
Lemma publish_presupposes_everything_before_witness :
  let r := exec (Demo.scripted Demo.failingMaterialPublish) (main Demo.lib) 0 in
  existsb isPublish (trace r) = true
  /\ checkedPackages (trace r) = releasePackages Demo.lib
  /\ existsb isAuthQuery (beforeFirst isPublish (trace r)) = true
  /\ existsb isDeclinedPrompt (trace r) = false.
Proof.
  split; [reflexivity|].
  destruct (@publish_presupposes_everything_before nat
              (Demo.scripted Demo.failingMaterialPublish) Demo.lib 0 eq_refl)
    as (Hchecked & _ & _ & _ & _ & Hasked & _ & _ & Hdeclined).
  repeat split; assumption.
Defined.

(* ================================================================== *)
(** ** The dist tag of the publish calls *)
(* ================================================================== *)

(** The dist tag is asked for at most once in a run, and every
    [runNpmPublish] call of the run passes the tag that this one
    prompt answered, whatever the string is; without the prompt
    nothing is published. *)
Theorem publish_uses_prompted_dist_tag :
  forall W (env : Env W) lib w,
    let r := exec env (main lib) w in
    (distTags (trace r) = [] /\ publishTags (trace r) = [])
    \/ exists npmDistTag,
         distTags (trace r) = [npmDistTag]
         /\ forallb (String.eqb npmDistTag) (publishTags (trace r)) = true.
Proof.
  intros W env lib w r. subst r. script_cases.
  all: observe.
  all: first [ left; split; reflexivity
             | right; eexists; split; [reflexivity|]; auto ].
Qed.

(** On an example: publishing the second package fails under the tag
    [latest]. *)
Lemma publish_uses_prompted_dist_tag_witness :
  let r := exec (Demo.scripted Demo.failingMaterialPublish) (main Demo.lib) 0 in
  distTags (trace r) = ["latest"]
  /\ forallb (String.eqb "latest") (publishTags (trace r)) = true.
Proof.
  split; [reflexivity|].
  destruct (@publish_uses_prompted_dist_tag nat
              (Demo.scripted Demo.failingMaterialPublish) Demo.lib 0)
    as [[Hnone _]|(tag & Hone & Hall)].
  - vm_compute in Hnone. discriminate Hnone.
  - vm_compute in Hone. injection Hone as <-. exact Hall.
Defined.

(* ================================================================== *)
(** ** Declining the final confirmation *)
(* ================================================================== *)

(** When the final confirmation is answered no, the process exits
    with code 0 and nothing is published, but the release tag has been
    created by then, and [isNpmAuthenticated] has been asked and
    either answered yes or answered no and followed by a first login
    attempt that succeeded: the tag stays although nothing was
    released. *)
Theorem declined_release_leaves_the_tag :
  forall W (env : Env W) lib w,
    let r := exec env (main lib) w in
    existsb isReleaseDeclined (trace r) = true ->
    outcome r = Exited 0
    /\ existsb isPublish (trace r) = false
    /\ List.length (filter isTagCreation (beforeFirst isReleaseDeclined (trace r))) = 1
    /\ forallb isConsole (afterFirst isReleaseDeclined (trace r)) = true
    /\ ((authAnswers (trace r) = [true] /\ loginAnswers (trace r) = [])
        \/ (authAnswers (trace r) = [false] /\ loginAnswers (trace r) = [true]))
    /\ existsb isAuthQuery (beforeFirst isReleaseDeclined (trace r)) = true.
Proof.
  intros W env lib w r. subst r. script_cases.
  all: unfold authAnswers.
  all: observe.
  all: intros Hdeclined; try discriminate Hdeclined.
  all: repeat split; auto.
Qed.

(** On an example: everything goes well, and the final confirmation is
    answered no. *)
Lemma declined_release_leaves_the_tag_witness :
  let r := exec (Demo.scripted Sessions.declinedRelease) (main Demo.lib) 0 in
  existsb isReleaseDeclined (trace r) = true
  /\ outcome r = Exited 0
  /\ existsb isPublish (trace r) = false
  /\ filter isTagCreation (trace r) = [EAct (CreateTag "HEAD" "5.0.0" "")].
Proof.
  split; [reflexivity|].
  destruct (@declined_release_leaves_the_tag nat
              (Demo.scripted Sessions.declinedRelease) Demo.lib 0 eq_refl)
    as (Hexit & Hpublish & _).
  split; [exact Hexit|]. split; [exact Hpublish|]. reflexivity.
Defined.

(* ================================================================== *)
(** ** The last lines of a run *)
(* ================================================================== *)

Lemma endsWith_cons suffix e tr :
  endsWith suffix tr -> endsWith suffix (e :: tr).
Proof. intros [before ->]. exists (e :: before). reflexivity. Qed.

Lemma endsWith_app suffix l tr :
  endsWith suffix tr -> endsWith suffix (l ++ tr)%list.
Proof. intros [before ->]. exists (l ++ before)%list. now rewrite app_assoc. Qed.

Lemma endsWith_refl suffix : endsWith suffix suffix.
Proof. exists []. reflexivity. Qed.

Ltac ends :=
  repeat first [ apply endsWith_refl | apply endsWith_app | apply endsWith_cons ].

(** A run that returns ends with the report that all packages were
    published, the reminder to push the tag and the releases URL of
    the repository angular/material2; a run that ends with exit code
    0 ends with an empty line and the line that the publish is
    aborted. *)
Theorem last_lines_of_a_run :
  forall W (env : Env W) lib w,
    let r := exec env (main lib) w in
    (outcome r = Returned tt ->
     endsWith
       [EAct (Console Log "");
        EAct (Console Info
          (green lib (bold lib "  ✓   Published all packages successfully")));
        EAct (Console Info
          (yellow lib
             ("  ⚠   Please push the newly created tag to Github and draft a new "
                ++ "release.")));
        EAct (Console Info
          (yellow lib
             ("      " ++ getGithubReleasesUrl lib "angular" "material2")))]
       (trace r))
    /\ (outcome r = Exited 0 ->
        endsWith
          [EAct (Console Log "");
           EAct (Console Log (yellow lib "Aborting publish..."))]
          (trace r)).
Proof.
  intros W env lib w r. subst r. script_cases.
  all: split; intros Hout; try discriminate Hout.
  all: ends.
Qed.

(** On an example: the session in which everything goes well. *)
Lemma last_lines_of_a_run_witness :
  let r := exec (Demo.scripted Demo.smooth) (main Demo.lib) 0 in
  outcome r = Returned tt
  /\ endsWith
       [EAct (Console Log "");
        EAct (Console Info "  ✓   Published all packages successfully");
        EAct (Console Info
          "  ⚠   Please push the newly created tag to Github and draft a new release.");
        EAct (Console Info "      https://github.com/angular/material2/releases")]
       (trace r).
Proof.
  split; [reflexivity|].
  destruct (@last_lines_of_a_run nat (Demo.scripted Demo.smooth) Demo.lib 0)
    as [Hreturned _].
  exact (Hreturned eq_refl).
Defined.


(* ================================================================== *)
(** ** The login loop, for any number of tries *)
(* ================================================================== *)

Lemma mayRun_loginLoop lib triesLeft : forall failedAuthentication tr o,
  mayRun (loginLoop lib triesLeft failedAuthentication) tr o ->
  let answers := loginAnswers tr in
  List.length answers <= triesLeft
  /\ o = Returned (failedAuthentication || existsb negb answers)
  /\ forallb negb (removelast answers) = true
  /\ (List.length answers < triesLeft -> existsb (fun a => a) answers = true)
  /\ forallb (fun e => isConsole e || isLoginAttempt e) tr = true.
Proof.
  induction triesLeft as [|n IH]; intros flag tr o H; simpl in H.
  - destruct H as [-> ->]. simpl. rewrite orb_false_r.
    repeat split; auto. intros Hlt. inversion Hlt.
  - destruct H as ([|] & rest & -> & H).
    + simpl in H. destruct H as [-> ->]. simpl. rewrite orb_false_r.
      repeat split; auto. lia.
    + cbn [bind console mayRun] in H. destruct H as (rest' & -> & H).
      destruct (IH _ _ _ H) as (Hlen & -> & Hfirst & Hearly & Hkinds).
      unfold loginAnswers in *. cbn [flat_map app existsb negb forallb isConsole isLoginAttempt orb andb].
      rewrite orb_true_r.
      repeat split; auto.
      * simpl. lia.
      * destruct (flat_map _ rest') eqn:E; [reflexivity|].
        change (forallb negb (false :: removelast (b :: l)) = true).
        simpl. exact Hfirst.
      * intros Hlt. simpl in Hlt. apply Hearly. lia.
Qed.

(** Whatever the number of tries, the login loop makes at most that
    many attempts, each one after a failed one; it stops before the
    tries are used up only after a successful attempt; it never exits
    by itself; and the flag it leaves is set as soon as one attempt
    has failed, also when a later attempt succeeds. *)
Theorem login_loop_for_any_number_of_tries :
  forall W (env : Env W) lib triesLeft failedAuthentication w,
    let r := exec env (loginLoop lib triesLeft failedAuthentication) w in
    let answers := loginAnswers (trace r) in
    List.length answers <= triesLeft
    /\ outcome r = Returned (failedAuthentication || existsb negb answers)
    /\ forallb negb (removelast answers) = true
    /\ (List.length answers < triesLeft -> existsb (fun a => a) answers = true)
    /\ forallb (fun e => isConsole e || isLoginAttempt e) (trace r) = true.
Proof.
  intros W env lib n flag w r. subst r.
  apply (mayRun_loginLoop lib n flag), exec_mayRun.
Qed.

(** On an example: five tries allowed, the third login succeeds. *)
Lemma login_loop_for_any_number_of_tries_witness :
  let r := exec (Demo.scripted Sessions.thirdLoginSucceeds)
             (loginLoop Demo.lib 5 false) 0 in
  loginAnswers (trace r) = [false; false; true]
  /\ List.length (loginAnswers (trace r)) < 5
  /\ outcome r = Returned true.
Proof.
  split; [reflexivity|]. split; [vm_compute; lia|].
  destruct (@login_loop_for_any_number_of_tries nat
              (Demo.scripted Sessions.thirdLoginSucceeds) Demo.lib 5 false 0)
    as (_ & Hout & _).
  rewrite Hout. reflexivity.
Defined.


(* ================================================================== *)
(** ** Titles the version-bump check rejects or keeps accepting *)
(* ================================================================== *)

Lemma length_append (a b : string) :
  String.length (a ++ b) = String.length a + String.length b.
Proof. induction a as [|c a IH]; simpl; [reflexivity | now rewrite IH]. Qed.

Lemma utf16Length_append (a b : string) :
  utf16Length (a ++ b) = utf16Length a + utf16Length b.
Proof. induction a as [|c a IH]; simpl; [reflexivity | rewrite IH; lia]. Qed.

Lemma append_assoc (a b c : string) : (a ++ b) ++ c = a ++ (b ++ c).
Proof. induction a as [|x a IH]; simpl; [reflexivity | now rewrite IH]. Qed.

(** A title shorter than the pattern is rejected, whether its length
    is taken as JavaScript takes it (in UTF-16 code units) or in
    UTF-8 bytes: [verifyLastCommitVersionBump] exits with code 1. And
    a title it accepts stays accepted with any text put before or
    after it. *)
Theorem commit_title_edges :
  forall W (env : Env W) lib w,
    let title := fst (answerStr env (GetCommitTitle "HEAD") w) in
    let r := exec env (verifyLastCommitVersionBump lib) w in
    (utf16Length title < utf16Length versionBumpPattern ->
     outcome r = Exited 1)
    /\ (String.length title < String.length versionBumpPattern ->
        outcome r = Exited 1)
    /\ (outcome r = Returned tt ->
        forall W' (env' : Env W') w' before after,
          fst (answerStr env' (GetCommitTitle "HEAD") w') = before ++ title ++ after ->
          outcome (exec env' (verifyLastCommitVersionBump lib) w') = Returned tt).
Proof.
  intros W env lib w title r. subst title r. simpl.
  destruct (regexTestLiteral versionBumpPattern
              (fst (answerStr env (GetCommitTitle "HEAD") w))) eqn:Hmatch; simpl.
  - apply regexTestLiteral_spec in Hmatch. destruct Hmatch as (b0 & a0 & Htitle).
    split; [|split].
    + intros Hshort. rewrite Htitle, !utf16Length_append in Hshort.
      assert (Hlen : utf16Length versionBumpPattern = 19) by reflexivity.
      lia.
    + intros Hshort. rewrite Htitle, !length_append in Hshort.
      assert (Hlen : String.length versionBumpPattern = 19) by reflexivity.
      lia.
    + intros _ W' env' w' before after Hlonger.
      assert (Hm : regexTestLiteral versionBumpPattern
                     (fst (answerStr env' (GetCommitTitle "HEAD") w')) = true).
      { apply regexTestLiteral_spec. exists (before ++ b0), (a0 ++ after).
        rewrite Hlonger, Htitle.
        now rewrite !append_assoc. }
      rewrite Hm. reflexivity.
  - split; [reflexivity|]. split; [reflexivity|]. intros Hout. discriminate Hout.
Qed.

(** On an example: a title of seven characters that takes 21 bytes,
    more than the 19 of the pattern. *)
Lemma commit_title_edges_witness :
  utf16Length "✘✘✘✘✘✘✘" = 7
  /\ String.length "✘✘✘✘✘✘✘" = 21
  /\ utf16Length versionBumpPattern = 19
  /\ outcome (exec (Demo.scripted Sessions.shortTitle)
                (verifyLastCommitVersionBump Demo.lib) 0) = Exited 1.
Proof.
  split; [reflexivity|]. split; [reflexivity|]. split; [reflexivity|].
  destruct (@commit_title_edges nat (Demo.scripted Sessions.shortTitle) Demo.lib 0)
    as [Hshort _].
  apply Hshort. vm_compute. lia.
Defined.

(* ================================================================== *)
(** ** An empty package list *)
(* ================================================================== *)

Lemma only_checks_nil tr :
  forallb isCheck tr = true -> checkedPackages tr = [] -> tr = [].
Proof.
  destruct tr as [|e tr]; [reflexivity|]. simpl. intros Hall Hnone.
  apply andb_true_iff in Hall. destruct Hall as [He _].
  destruct e as [[] ?|[] ?|[]|]; simpl in He; try discriminate He.
  discriminate Hnone.
Qed.

Lemma no_paths_no_publish tr :
  publishedPaths tr = [] -> existsb isPublish tr = false /\ publishErrors tr = [].
Proof.
  induction tr as [|e tr IH]; simpl; intros H; [split; reflexivity|].
  destruct e as [[] ?|[] ?|[]|]; simpl in *; try discriminate H; auto.
Qed.

(** With an empty [releasePackages], no check and no publish call is
    made in any run, the second build command names no task at all
    ([gulp] followed by a space), validation cannot fail, and a run in
    which the final confirmation is answered yes returns, reporting
    success, with the tag created and nothing published. *)
Theorem empty_package_list :
  forall W (env : Env W) lib w,
    let r := exec env (main lib) w in
    let binDir := join lib (entryProjectDir lib) "node_modules/.bin" in
    releasePackages lib = [] ->
    existsb isCheck (trace r) = false
    /\ existsb isPublish (trace r) = false
    /\ (filter isBuild (trace r) = []
        \/ filter isBuild (trace r) = [EBool (ExecSync "gulp clean" binDir) false]
        \/ exists succeeded,
             filter isBuild (trace r)
               = [EBool (ExecSync "gulp clean" binDir) true;
                  EBool (ExecSync "gulp " binDir) succeeded])
    /\ (existsb isReleaseConfirmed (trace r) = true ->
        outcome r = Returned tt
        /\ List.length (filter isTagCreation (trace r)) = 1).
Proof.
  intros W env lib w r binDir Hempty. subst r binDir. script_cases.
  all: repeat match goal with
       | Hc : forallb isCheck ?t = true, Hp : checkedPackages ?t = _ |- _ =>
           rewrite Hempty in Hp; pose proof (only_checks_nil _ Hc Hp); subst t;
           clear Hc Hp
       | Hp : publishedPaths ?t = _ |- _ =>
           rewrite Hempty, firstn_nil in Hp; simpl in Hp;
           destruct (no_paths_no_publish _ Hp) as [? ?]; clear Hp
       end.
  all: try match goal with
       | Hn : publishErrors ?t = [], He : publishErrors ?t = (_ ++ [_])%list |- _ =>
           rewrite Hn in He; destruct (app_cons_not_nil _ _ _ He)
       end.
  all: rewrite ?Hempty.
  all: observe.
  all: repeat split; eauto; discriminate.
Qed.

(** On an example: the imports of the examples without packages. *)
Lemma empty_package_list_witness :
  let r := exec (Demo.scripted Demo.smooth) (main Sessions.noPackages) 0 in
  releasePackages Sessions.noPackages = []
  /\ existsb isPublish (trace r) = false
  /\ outcome r = Returned tt.
Proof.
  split; [reflexivity|].
  destruct (@empty_package_list nat (Demo.scripted Demo.smooth)
              Sessions.noPackages 0 eq_refl)
    as (_ & Hpublish & _ & Hyes).
  split; [exact Hpublish|]. apply Hyes. reflexivity.
Defined.


(* ================================================================== *)
(** ** The error output of a failed publish *)
(* ================================================================== *)

(** A publish loop that exits has just printed, as its last line, the
    error output of its last [runNpmPublish] call. *)
Lemma mayRun_publishEach_report lib projectDir npmDistTag packages : forall tr c,
  mayRun (forOf (fun packageName => publishPackageToNpm lib projectDir packageName npmDistTag)
            packages) tr (Exited c) ->
  exists before text,
    publishErrors tr = (before ++ [Some text])%list
    /\ endsWith [EAct (Console Error (red lib (newline ++ text)))] tr.
Proof.
  induction packages as [|p packages IH]; intros tr c H.
  - simpl in H. destruct H as [_ H]. discriminate H.
  - cbn [forOf bind publishPackageToNpm console mayRun] in H.
    destruct H as (? & -> & err & rest & -> & H).
    destruct (truthyOpt err) eqn:Herr.
    + cbn [bind console mayRun] in H.
      destruct H as (? & -> & ? & -> & ? & -> & -> & _).
      destruct err as [text|]; [|discriminate Herr].
      exists [], text. split; [reflexivity|].
      do 4 apply endsWith_cons. apply endsWith_refl.
    + cbn [bind console mayRun] in H.
      destruct H as (? & -> & H).
      destruct (IH _ _ H) as (before & text & Herrs & Hends).
      exists (err :: before), text. split.
      * simpl. now rewrite Herrs.
      * do 3 apply endsWith_cons. exact Hends.
Qed.

(** As [walk_step], and at the publish loop it also keeps what the
    loop printed last when it exits. *)
Ltac walk_step_report H :=
  unfold checkReleaseOutput in H;
  unfold_script H;
  lazymatch type of H with
  | mayRun (bind (forOf _ _) _) _ _ =>
      let Hloop := fresh "Hpublish" in
      let Hout := fresh "Hout" in
      apply mayRun_bind_inv in H;
      destruct H as [(? & ? & ? & Hloop & H & ->)|[(? & Hloop & ->)|[Hloop ->]]];
      [ | pose proof (mayRun_publishEach_report _ _ _ _ _ _ Hloop) as ?Hreport | ];
      apply mayRun_publishEach in Hloop;
      destruct Hloop as (?Hallpub & ?Hpaths & ?Htags
                         & [(Hout & ?Hlen & ?Hok)
                           |(Hout & ?before & ?last & ?Herrs & ?Hbefore & ?Hlast)]);
      first [ discriminate Hout | injection Hout as Hout; subst | idtac ]
  | _ => walk_step H
  end.

Ltac script_cases_report :=
  lazymatch goal with
  | |- context [exec ?env (main ?lib) ?w] =>
      let tr := fresh "tr" in
      let o := fresh "o" in
      let H := fresh "Hrun" in
      let claim := fresh "claim" in
      generalize (exec_mayRun env (main lib) w);
      generalize (outcome (exec env (main lib) w));
      generalize (trace (exec env (main lib) w));
      unfold main, task, run, constructor, verifyLastCommitVersionBump,
        checkReleaseOutput, promptStableVersionForNextTag,
        promptConfirmReleasePublish, checkNpmAuthentication, console;
      name_texts;
      intros tr o H;
      pattern tr, o;
      lazymatch goal with |- ?Q _ _ => set (claim := Q) end;
      repeat walk_step_report H; settle_answers;
      subst claim; cbv beta
  end.

(** In a run in which a [runNpmPublish] call returns error output,
    that call is the last one, and the last line the script prints
    before it exits with code 1 is that error output, as returned,
    after a line break. *)
Theorem publish_error_is_printed :
  forall W (env : Env W) lib w,
    let r := exec env (main lib) w in
    forallb (fun err => negb (truthyOpt err)) (publishErrors (trace r)) = false ->
    outcome r = Exited 1
    /\ exists before text,
         publishErrors (trace r) = (before ++ [Some text])%list
         /\ forallb (fun err => negb (truthyOpt err)) before = true
         /\ truthy text = true
         /\ endsWith [EAct (Console Error (red lib (newline ++ text)))] (trace r).
Proof.
  intros W env lib w r. subst r. script_cases_report.
  all: try match goal with
       | Hr : exists _ _, _ /\ _ |- _ =>
           let b := fresh "b" in
           let t := fresh "t" in
           let Hb := fresh "Hb" in
           let He := fresh "He" in
           destruct Hr as (b & t & Hb & He);
           first [rewrite Herrs in Hb | unfold publishErrors in *; rewrite Herrs in Hb];
           apply app_inj_tail in Hb; destruct Hb as [<- ->]
       end.
  all: observe.
  all: intros Hnot; try discriminate Hnot.
  all: split; [reflexivity|].
  all: eexists _, _; split; [reflexivity|].
  all: split; [assumption|].
  all: split; [assumption|].
  all: ends; assumption.
Qed.

Lemma publish_error_is_printed_witness :
  let r := exec (Demo.scripted Demo.failingMaterialPublish) (main Demo.lib) 0 in
  outcome r = Exited 1
  /\ exists before text,
       publishErrors (trace r) = (before ++ [Some text])%list
       /\ forallb (fun err => negb (truthyOpt err)) before = true
       /\ truthy text = true
       /\ endsWith [EAct (Console Error (red Demo.lib (newline ++ text)))] (trace r).
Proof.
  apply (@publish_error_is_printed nat (Demo.scripted Demo.failingMaterialPublish)
           Demo.lib 0).
  reflexivity.
Defined.

(* ================================================================== *)
(** ** The two sessions of the specification, run *)
(* ================================================================== *)

(** A clean tree, the last commit a version bump to 5.0.0, the dist
    tag [latest], every validation and every publish call passing: the
    tag 5.0.0 is created, every package is published, [run] returns. *)
Example smooth_session :
  let r := exec (Demo.scripted Demo.smooth) (main Demo.lib) 0 in
  filter isTagCreation (trace r) = [EAct (CreateTag "HEAD" "5.0.0" "")]
  /\ publishedPaths (trace r)
       = ["/repo/dist/releases/cdk"; "/repo/dist/releases/material";
          "/repo/dist/releases/material-moment-adapter"]
  /\ publishTags (trace r) = ["latest"; "latest"; "latest"]
  /\ exitCode (outcome r) = Some 0%Z.
Proof. repeat split. Qed.

(** The same, but the publish call of the second of the three packages
    returns error output: the third package is never published, and
    the process exits with code 1. *)
Example failing_publish_session :
  let r := exec (Demo.scripted Demo.failingMaterialPublish) (main Demo.lib) 0 in
  Demo.calls (afterFirst isReleaseConfirm (trace r))
    = [EPublish "/repo/dist/releases/cdk" "latest" None;
       EPublish "/repo/dist/releases/material" "latest" (Some "npm ERR! 403")]
  /\ exitCode (outcome r) = Some 1%Z.
Proof. repeat split. Qed.
